(** * Blogicum: the view layer of [blog/views.py]

    A shallow embedding of the Django views of the blog application and the
    properties of its visibility filter, its pagination helper and its
    authorisation checks.

    The relational store is a record of tables, each table the list of its
    rows in the order the database enumerates them.  A queryset is the list
    of rows it evaluates to; ordering a queryset is left to the database
    engine, of which only what [ORDER BY] promises is assumed.  View functions that only read take the store
    and return a result; view functions that write thread the store.  An
    exception that leaves a view is a result of its own ([Raise]), which the
    framework turns into a status code. *)

From stdpp Require Import base decidable option list strings sorting.
From Stdlib Require Import ZArith Ascii.

Local Open Scope Z_scope.

(** ** Data model *)

(** Modelled from the spec: [blog/models.py] is not among the sources.  The
    records carry the fields the views read or set, shaped as in section 3
    of the specification (a post's category and location are optional
    references, held as the primary key they point to). *)
Module User.
Record t := mk { id : Z; username : string }.
End User.

Module Category.
Record t := mk { id : Z; slug : string; is_published : bool }.
End Category.

Module Post.
Record t := mk {
  id : Z;
  title : string;
  text : string;
  pub_date : Z;
  is_published : bool;
  author : Z;
  category : option Z;
  location : option Z
}.

Definition with_id (i : Z) (p : t) : t :=
  mk i (title p) (text p) (pub_date p) (is_published p) (author p)
     (category p) (location p).

Definition with_author (a : Z) (p : t) : t :=
  mk (id p) (title p) (text p) (pub_date p) (is_published p) a
     (category p) (location p).

(** [Post()]: the instance a model form fills in when none is given.  Its
    primary key is a placeholder until the row is inserted. *)
Definition blank : t := mk 0 EmptyString EmptyString 0 true 0 None None.
End Post.

Module Comment.
Record t := mk { id : Z; text : string; author : Z; post : Z }.

Definition with_id (i : Z) (c : t) : t := mk i (text c) (author c) (post c).
Definition with_author (a : Z) (c : t) : t := mk (id c) (text c) a (post c).
Definition with_post (p : Z) (c : t) : t := mk (id c) (text c) (author c) p.

Definition blank : t := mk 0 EmptyString 0 0.
End Comment.


(** The database: one list of rows per table. *)
Record Store := mkStore {
  users : list User.t;
  categories : list Category.t;
  posts : list Post.t;
  comments : list Comment.t
}.

(** ** Requests *)

Inductive Method := GET | POST.

#[global] Instance Method_eq_dec : EqDecision Method.
Proof. solve_decision. Defined.

(** [request.user]: the logged-in user or Django's [AnonymousUser]. *)
Inductive Requester :=
  | AnonymousUser
  | Authenticated (u : User.t).

(** A [QueryDict]: the submitted pairs in order; a key may repeat. *)
Definition QueryDict := list (string * string).

Record HttpRequest := mkRequest {
  method : Method;
  user : Requester;
  GET_data : QueryDict;
  POST_data : QueryDict;
  FILES : QueryDict
}.

(** [QueryDict.get(key)]: the last value submitted under [key], or [None]. *)
Fixpoint querydict_get (key : string) (d : QueryDict) : option string :=
  match d with
  | [] => None
  | (k, v) :: rest =>
      match querydict_get key rest with
      | Some w => Some w
      | None => if decide (k = key) then Some v else None
      end
  end.

(** [request.GET.get('page')], the value [get_paginated_page] reads. *)
Definition page_param (request : HttpRequest) : option string :=
  querydict_get "page" (GET_data request).

(** [d or None]: an empty [QueryDict] is falsy. *)
Definition or_None (d : QueryDict) : option QueryDict :=
  match d with [] => None | _ => Some d end.

(** Model instances compare by primary key, and [AnonymousUser] equals no
    stored user: [request.user == <user with key uid>]. *)
Definition is_user (r : Requester) (uid : Z) : Prop :=
  match r with
  | AnonymousUser => False
  | Authenticated u => User.id u = uid
  end.

#[global] Instance is_user_dec r uid : Decision (is_user r uid).
Proof. destruct r; simpl; apply _. Defined.

(** ** Querysets *)

(** A row of a post queryset: the post and, once [annotate] has run, the
    [comment_count] attribute. *)
Record Row := mkRow { row_post : Post.t; comment_count : option nat }.

Definition QuerySet := list Row.

(** [Post.objects] *)
Definition Post_objects (st : Store) : QuerySet :=
  (λ p, mkRow p None) <$> posts st.

(** [Count('comments')] for one post: the comments that point to it. *)
Definition count_comments (st : Store) (p : Post.t) : nat :=
  length (filter (λ c, Comment.post c = Post.id p) (comments st)).

(** [.annotate(comment_count=Count('comments'))] *)
Definition annotate_comment_count (st : Store) (qs : QuerySet) : QuerySet :=
  (λ r, mkRow (row_post r) (Some (count_comments st (row_post r)))) <$> qs.

(** [category__is_published=True]: the join with the category table. A post
    without a category, or whose category is unpublished, has no match. *)
Definition category_published (st : Store) (p : Post.t) : Prop :=
  ∃ c, c ∈ categories st ∧ Post.category p = Some (Category.id c)
       ∧ Category.is_published c = true.

#[global] Instance category_published_dec st p : Decision (category_published st p).
Proof.
  refine (cast_if (decide (Exists (λ c, Post.category p = Some (Category.id c)
                                        ∧ Category.is_published c = true)
                                  (categories st))));
    unfold category_published; rewrite Exists_exists in *; naive_solver.
Defined.

(** The three conditions of [get_filtered_posts_qs] on one post. *)
Definition publicly_visible (st : Store) (now : Z) (p : Post.t) : Prop :=
  Post.is_published p = true ∧ category_published st p ∧ Post.pub_date p ≤ now.

#[global] Instance publicly_visible_dec st now p : Decision (publicly_visible st now p).
Proof. unfold publicly_visible. apply _. Defined.

(** [newest_first r1 r2]: [r1] may stand before [r2] in a listing. *)
Definition newest_first (r1 r2 : Row) : Prop :=
  Post.pub_date (row_post r2) ≤ Post.pub_date (row_post r1).

(** [.order_by('-pub_date')] is carried out by the database engine.  The
    views give it one key, [pub_date], descending: the engine returns the
    rows it was given, newest first, and is free in how it arranges rows of
    equal date.  An engine is any function with these two properties. *)
Class Database := {
  order_by_pub_date_desc : QuerySet → QuerySet;
  order_by_pub_date_desc_perm qs : order_by_pub_date_desc qs ≡ₚ qs;
  order_by_pub_date_desc_sorted qs :
    StronglySorted newest_first (order_by_pub_date_desc qs)
}.

(** Two engines, both by insertion.  [goes_first strict r r'] decides
    whether the row [r] being inserted is put before the row [r'] already
    placed: before rows that are no newer ([strict = false], rows of equal
    date come out in table order), or only before rows that are older
    ([strict = true], rows of equal date come out in reverse table order). *)
Definition goes_first (strict : bool) (r r' : Row) : Prop :=
  if strict
  then Post.pub_date (row_post r') < Post.pub_date (row_post r)
  else Post.pub_date (row_post r') ≤ Post.pub_date (row_post r).

#[global] Instance goes_first_dec strict r r' : Decision (goes_first strict r r').
Proof. destruct strict; simpl; apply _. Defined.

Fixpoint insert_by_pub_date (strict : bool) (r : Row) (qs : QuerySet)
    : QuerySet :=
  match qs with
  | [] => [r]
  | r' :: rest =>
      if decide (goes_first strict r r')
      then r :: r' :: rest
      else r' :: insert_by_pub_date strict r rest
  end.

Definition sort_by_pub_date_desc (strict : bool) (qs : QuerySet) : QuerySet :=
  foldr (insert_by_pub_date strict) [] qs.

Lemma insert_by_pub_date_perm strict r qs :
  insert_by_pub_date strict r qs ≡ₚ r :: qs.
Proof.
  induction qs as [|r' rest IH]; simpl; [done|].
  case_decide; [done|]. rewrite IH. apply perm_swap.
Qed.

Lemma sort_by_pub_date_desc_perm strict qs :
  sort_by_pub_date_desc strict qs ≡ₚ qs.
Proof.
  induction qs as [|r rest IH]; simpl; [done|].
  rewrite insert_by_pub_date_perm. by f_equiv.
Qed.

Lemma insert_by_pub_date_sorted strict r qs :
  StronglySorted newest_first qs →
  StronglySorted newest_first (insert_by_pub_date strict r qs).
Proof.
  induction 1 as [|r' rest Hrest IH Hall]; simpl.
  - repeat constructor.
  - case_decide as Hfirst.
    + constructor; [by constructor|].
      assert (newest_first r r') as Hle
        by (unfold newest_first; destruct strict; simpl in Hfirst; lia).
      constructor; [done|].
      eapply Forall_impl; [exact Hall|].
      unfold newest_first in *. intros; lia.
    + constructor; [done|].
      rewrite insert_by_pub_date_perm.
      constructor; [|done].
      unfold newest_first. destruct strict; simpl in Hfirst; lia.
Qed.

Lemma sort_by_pub_date_desc_sorted strict qs :
  StronglySorted newest_first (sort_by_pub_date_desc strict qs).
Proof.
  induction qs as [|r rest IH]; simpl; [constructor|].
  by apply insert_by_pub_date_sorted.
Qed.

Definition insertion_engine (strict : bool) : Database := {|
  order_by_pub_date_desc := sort_by_pub_date_desc strict;
  order_by_pub_date_desc_perm := sort_by_pub_date_desc_perm strict;
  order_by_pub_date_desc_sorted := sort_by_pub_date_desc_sorted strict
|}.

Definition ties_in_table_order : Database := insertion_engine false.
Definition ties_in_reverse_order : Database := insertion_engine true.

Section querysets.
Context `{Database}.

(** [get_posts]: the keyword filter it is given is a predicate on posts.
    [select_related] only fetches the referenced rows along with each post;
    under the foreign-key constraints it drops none. *)
Definition get_posts (st : Store) (kwargs : Post.t → Prop)
    `{!∀ p, Decision (kwargs p)} : QuerySet :=
  order_by_pub_date_desc
    (filter (λ r, kwargs (row_post r))
       (annotate_comment_count st (Post_objects st))).

(** [get_filtered_posts_qs()], with [timezone.now()] passed in. *)
Definition get_filtered_posts_qs (st : Store) (now : Z) : QuerySet :=
  filter (λ r, publicly_visible st now (row_post r)) (Post_objects st).

(** The queryset [index] paginates. *)
Definition index_posts (st : Store) (now : Z) : QuerySet :=
  order_by_pub_date_desc
    (annotate_comment_count st (get_filtered_posts_qs st now)).
End querysets.

(** ** Exceptions, results and responses *)

(** The two [InvalidPage] exceptions of [django.core.paginator]. *)
Inductive InvalidPage :=
  | PageNotAnInteger
  | EmptyPage.

Inductive Exception :=
  | Http404 (msg : string)
  | MultipleObjectsReturned
  | InvalidPageError (e : InvalidPage).

(** What a call produces: a value, or an exception on its way out. *)
Inductive Result (A : Type) :=
  | Return (a : A)
  | Raise (e : Exception).
Arguments Return {A} a.
Arguments Raise {A} e.

#[global] Instance Result_ret : MRet Result := λ A a, Return a.
#[global] Instance Result_bind : MBind Result := λ A B f m,
  match m with
  | Return a => f a
  | Raise e => Raise e
  end.

(** Named URL patterns of the [blog] namespace that the views redirect to,
    and the login page [login_required] sends anonymous visitors to. *)
Inductive Url :=
  | blog_index
  | blog_post_detail (post_id : Z)
  | blog_profile (username : string)
  | login_page.

(** A form object: the bound data (if any), the bound files (if any) and the
    model instance it edits. *)
Record Form (A : Type) := mkForm {
  form_data : option QueryDict;
  form_files : option QueryDict;
  form_instance : A
}.
Arguments mkForm {A} _ _ _.
Arguments form_data {A} _.
Arguments form_files {A} _.
Arguments form_instance {A} _.

(** [Paginator(object_list, per_page)] and the [Page] it hands out. *)
Record Paginator := mkPaginator {
  object_list : QuerySet;
  per_page : Z
}.

Record Page := mkPage {
  page_object_list : QuerySet;
  number : Z;
  paginator : Paginator
}.

(** Values a template context holds. *)
Inductive Value :=
  | VPage (p : Page)
  | VPost (p : Post.t)
  | VCategory (c : Category.t)
  | VUser (u : User.t)
  | VComment (c : Comment.t)
  | VComments (cs : list Comment.t)
  | VPostForm (f : Form Post.t)
  | VCommentForm (f : Form Comment.t)
  | VUserForm (f : Form User.t).

Definition Context := list (string * Value).

Inductive HttpResponse :=
  | Render (template : string) (context : Context)
  | Redirect (to : Url).

(** The status the framework answers with. *)
Definition status_code (r : Result HttpResponse) : Z :=
  match r with
  | Return (Render _ _) => 200
  | Return (Redirect _) => 302
  | Raise (Http404 _) => 404
  | Raise _ => 500
  end.

(** ** External collaborators *)

(** Values [Paginator.validate_number] is handed. *)
Inductive PyValue :=
  | PyNone
  | PyStr (s : string)
  | PyInt (n : Z).

(** Modelled from the spec: [blog/forms.py] is not among the sources, and
    section 2 describes the forms only as validating and mapping the
    submitted fields to Post, Comment and User records.  Each [*_clean]
    takes the store, the bound data and files and the instance, and gives
    the instance with the cleaned fields assigned, or [None] when the form
    has errors.  [py_int] is Python's [int] on a string ([None] when it
    raises [ValueError]). *)
Class Collaborators := {
  py_int : string → option Z;
  PostForm_clean : Store → QueryDict → QueryDict → Post.t → option Post.t;
  CommentForm_clean : Store → QueryDict → Comment.t → option Comment.t;
  UserForm_clean : Store → QueryDict → User.t → option User.t
}.

(** ** Table operations *)

(** [Model.objects.get(...)]: exactly one matching row, or one of the two
    exceptions of [get]. *)
Inductive Lookup (A : Type) :=
  | DoesNotExist
  | Found (x : A)
  | Multiple.
Arguments DoesNotExist {A}.
Arguments Found {A} x.
Arguments Multiple {A}.

Definition objects_get {A} (P : A → Prop) `{!∀ x, Decision (P x)}
    (table : list A) : Lookup A :=
  match filter P table with
  | [] => DoesNotExist
  | [x] => Found x
  | _ => Multiple
  end.

Definition get_object_or_404 {A} (model : string) (P : A → Prop)
    `{!∀ x, Decision (P x)} (table : list A) : Result A :=
  match objects_get P table with
  | DoesNotExist => Raise (Http404 ("No " +:+ model +:+ " matches the given query."))
  | Found x => Return x
  | Multiple => Raise MultipleObjectsReturned
  end.

(** The key an [INSERT] assigns: one more than the largest in use. *)
Definition next_pk (pks : list Z) : Z := 1 + foldr Z.max 0 pks.

(** [instance.save()] for an instance read from the table: every column of
    the row with that key is overwritten. *)
Definition update_row {A} (pk : A → Z) (x : A) (table : list A) : list A :=
  (λ y, if decide (pk y = pk x) then x else y) <$> table.

Definition delete_row {A} (pk : A → Z) (k : Z) (table : list A) : list A :=
  filter (λ y, pk y ≠ k) table.

Definition Post_insert (p : Post.t) (st : Store) : Store :=
  mkStore (users st) (categories st)
    (posts st ++ [Post.with_id (next_pk (Post.id <$> posts st)) p])
    (comments st).

Definition Post_update (p : Post.t) (st : Store) : Store :=
  mkStore (users st) (categories st) (update_row Post.id p (posts st))
    (comments st).

(** Modelled from the spec: the [on_delete] of [Comment.post] is declared in
    [blog/models.py], which is not among the sources; section 3 has
    comments deleted in cascade with their post. *)
Definition Post_delete (p : Post.t) (st : Store) : Store :=
  mkStore (users st) (categories st) (delete_row Post.id (Post.id p) (posts st))
    (filter (λ c, Comment.post c ≠ Post.id p) (comments st)).

Definition Comment_insert (c : Comment.t) (st : Store) : Store :=
  mkStore (users st) (categories st) (posts st)
    (comments st ++ [Comment.with_id (next_pk (Comment.id <$> comments st)) c]).

Definition Comment_update (c : Comment.t) (st : Store) : Store :=
  mkStore (users st) (categories st) (posts st)
    (update_row Comment.id c (comments st)).

Definition Comment_delete (c : Comment.t) (st : Store) : Store :=
  mkStore (users st) (categories st) (posts st)
    (delete_row Comment.id (Comment.id c) (comments st)).

Definition User_update (u : User.t) (st : Store) : Store :=
  mkStore (update_row User.id u (users st)) (categories st) (posts st)
    (comments st).

(** ** Django's paginator *)

Section paginator.
Context `{Collaborators}.

Definition count (p : Paginator) : Z := Z.of_nat (length (object_list p)).

(** [num_pages], with the defaults [orphans=0] and
    [allow_empty_first_page=True]: [ceil(max(1, count) / per_page)]. *)
Definition num_pages (p : Paginator) : Z :=
  let hits := Z.max 1 (count p - 0) in
  (hits + per_page p - 1) / per_page p.

(** [int(number)] inside [validate_number]: [None] is a [TypeError], a
    string goes through Python's parser. *)
Definition int_of (number : PyValue) : option Z :=
  match number with
  | PyNone => None
  | PyStr s => py_int s
  | PyInt n => Some n
  end.

Definition validate_number (p : Paginator) (number : PyValue)
    : InvalidPage + Z :=
  match int_of number with
  | None => inl PageNotAnInteger
  | Some n =>
      if decide (n < 1) then inl EmptyPage
      else if decide (n > num_pages p) then inl EmptyPage
      else inr n
  end.

(** [object_list[bottom:top]] for [0 <= bottom]. *)
Definition slice (bottom top : Z) (l : QuerySet) : QuerySet :=
  take (Z.to_nat top - Z.to_nat bottom) (drop (Z.to_nat bottom) l).

(** [Paginator.page(number)] *)
Definition page (p : Paginator) (number : PyValue) : Result Page :=
  match validate_number p number with
  | inl e => Raise (InvalidPageError e)
  | inr n =>
      let bottom := (n - 1) * per_page p in
      let top := bottom + per_page p in
      let top := if decide (top + 0 >= count p) then count p else top in
      Return (mkPage (slice bottom top (object_list p)) n p)
  end.

(** [Paginator.get_page(number)] *)
Definition get_page (p : Paginator) (number : PyValue) : Result Page :=
  let n :=
    match validate_number p number with
    | inr n => n
    | inl PageNotAnInteger => 1
    | inl EmptyPage => num_pages p
    end in
  page p (PyInt n).
End paginator.

(** ** The views *)

Definition NUMBER_OF_PAGINATOR_PAGES : Z := 10.

(** A view that writes: it runs on a store and leaves a store. *)
Definition View (A : Type) : Type := Store → Result A * Store.

#[global] Instance View_ret : MRet View := λ A a st, (Return a, st).
#[global] Instance View_bind : MBind View := λ A B f m st,
  match m st with
  | (Return a, st') => f a st'
  | (Raise e, st') => (Raise e, st')
  end.

Definition get_store : View Store := λ st, (Return st, st).
Definition modify (f : Store → Store) : View unit := λ st, (Return tt, f st).
Definition lift {A} (r : Result A) : View A := λ st, (r, st).

Section views.
Context `{Collaborators} `{Database}.

(** [PostForm(data, files=files, instance=instance).is_valid()] together
    with the instance [save] would write: a form is bound when data or
    files were given, and an unbound form is never valid. *)
Definition is_bound {A} (f : Form A) : bool :=
  bool_decide (is_Some (form_data f) ∨ is_Some (form_files f)).

Definition PostForm_cleaned (st : Store) (f : Form Post.t) : option Post.t :=
  if is_bound f
  then PostForm_clean st (default [] (form_data f)) (default [] (form_files f))
         (form_instance f)
  else None.

Definition CommentForm_cleaned (st : Store) (f : Form Comment.t)
    : option Comment.t :=
  if is_bound f
  then CommentForm_clean st (default [] (form_data f)) (form_instance f)
  else None.

Definition UserForm_cleaned (st : Store) (f : Form User.t) : option User.t :=
  if is_bound f
  then UserForm_clean st (default [] (form_data f)) (form_instance f)
  else None.

Definition get_paginated_page (request : HttpRequest) (queryset : QuerySet)
    : Result Page :=
  let number_of_pages := NUMBER_OF_PAGINATOR_PAGES in
  let paginator := mkPaginator queryset number_of_pages in
  let page_number :=
    match page_param request with
    | None => PyNone
    | Some s => PyStr s
    end in
  get_page paginator page_number.

Definition index (st : Store) (now : Z) (request : HttpRequest)
    : Result HttpResponse :=
  let posts := index_posts st now in
  page_obj ← get_paginated_page request posts;
  Return (Render "blog/index.html" [("page_obj", VPage page_obj)]).

(** The queryset [category_posts] paginates. *)
Definition category_posts_qs (st : Store) (now : Z) (category : Category.t)
    : QuerySet :=
  filter (λ r, Post.category (row_post r) = Some (Category.id category))
    (order_by_pub_date_desc (get_filtered_posts_qs st now)).

Definition category_posts (st : Store) (now : Z) (request : HttpRequest)
    (category_slug : string) : Result HttpResponse :=
  category ← get_object_or_404 "Category"
    (λ c, Category.slug c = category_slug ∧ Category.is_published c = true)
    (categories st);
  let posts := category_posts_qs st now category in
  page_obj ← get_paginated_page request posts;
  Return (Render "blog/post_list.html"
            [("category", VCategory category); ("page_obj", VPage page_obj)]).

Definition post_detail (st : Store) (request : HttpRequest) (post_id : Z)
    : Result HttpResponse :=
  post ←
    match objects_get (λ p, Post.id p = post_id) (posts st) with
    | Found post =>
        if decide (Post.is_published post = false
                   ∧ ¬ is_user (user request) (Post.author post))
        then Raise (Http404 "Пост не найден")
        else Return post
    | DoesNotExist => Raise (Http404 "Пост не найден")
    | Multiple => Raise MultipleObjectsReturned
    end;
  let form := mkForm (or_None (POST_data request)) None Comment.blank in
  let comments := filter (λ c, Comment.post c = Post.id post) (comments st) in
  Return (Render "blog/post_detail.html"
            [("post", VPost post); ("form", VCommentForm form);
             ("comments", VComments comments)]).

(** The queryset [profile] paginates. *)
Definition profile_posts (st : Store) (now : Z) (request : HttpRequest)
    (profile : User.t) : QuerySet :=
  let posts := get_posts st (λ p, Post.author p = User.id profile) in
  if decide (¬ is_user (user request) (User.id profile))
  then order_by_pub_date_desc
         (annotate_comment_count st
            (filter (λ r, Post.author (row_post r) = User.id profile)
               (get_filtered_posts_qs st now)))
  else posts.

Definition profile (st : Store) (now : Z) (request : HttpRequest)
    (username : string) : Result HttpResponse :=
  profile ← get_object_or_404 "User" (λ u, User.username u = username)
    (users st);
  let posts := profile_posts st now request profile in
  page_obj ← get_paginated_page request posts;
  Return (Render "blog/profile.html"
            [("profile", VUser profile); ("page_obj", VPage page_obj)]).
End views.

Section writing_views.
Context `{Collaborators}.

(** [@login_required]: an anonymous visitor is sent to the login page and
    the view does not run. *)
Definition login_required (request : HttpRequest)
    (view : User.t → View HttpResponse) : View HttpResponse :=
  match user request with
  | AnonymousUser => mret (Redirect login_page)
  | Authenticated u => view u
  end.

Definition create_post (request : HttpRequest) : View HttpResponse :=
  login_required request (λ request_user,
    st ← get_store;
    let form := mkForm (or_None (POST_data request)) (or_None (FILES request))
                  Post.blank in
    match PostForm_cleaned st form with
    | Some post =>
        let post := Post.with_author (User.id request_user) post in
        modify (Post_insert post);;
        mret (Redirect (blog_profile (User.username request_user)))
    | None =>
        mret (Render "blog/create.html" [("form", VPostForm form)])
    end).

Definition edit_post (request : HttpRequest) (post_id : Z)
    : View HttpResponse :=
  login_required request (λ _,
    st ← get_store;
    post ← lift (get_object_or_404 "Post" (λ p, Post.id p = post_id) (posts st));
    if decide (¬ is_user (user request) (Post.author post))
    then mret (Redirect (blog_post_detail post_id))
    else
      let form := mkForm (or_None (POST_data request)) None post in
      match PostForm_cleaned st form with
      | Some post' =>
          modify (Post_update post');;
          mret (Redirect (blog_post_detail post_id))
      | None =>
          mret (Render "blog/create.html" [("form", VPostForm form)])
      end).

Definition delete_post (request : HttpRequest) (post_id : Z)
    : View HttpResponse :=
  login_required request (λ _,
    st ← get_store;
    post ← lift (get_object_or_404 "Post" (λ p, Post.id p = post_id) (posts st));
    if decide (¬ is_user (user request) (Post.author post))
    then mret (Redirect (blog_post_detail post_id))
    else
      let form := mkForm (or_None (POST_data request)) None post in
      if decide (method request = POST)
      then
        modify (Post_delete post);;
        mret (Redirect blog_index)
      else
        mret (Render "blog/create.html" [("form", VPostForm form)])).

Definition add_comment (request : HttpRequest) (post_id : Z)
    : View HttpResponse :=
  login_required request (λ request_user,
    st ← get_store;
    post ← lift (get_object_or_404 "Post" (λ p, Post.id p = post_id) (posts st));
    let form := mkForm (or_None (POST_data request)) None Comment.blank in
    match CommentForm_cleaned st form with
    | Some comment =>
        let comment := Comment.with_author (User.id request_user) comment in
        let comment := Comment.with_post (Post.id post) comment in
        modify (Comment_insert comment)
    | None => mret tt
    end;;
    mret (Redirect (blog_post_detail post_id))).

Definition edit_comment (request : HttpRequest) (post_id comment_id : Z)
    : View HttpResponse :=
  login_required request (λ _,
    st ← get_store;
    comment ← lift (get_object_or_404 "Comment"
                      (λ c, Comment.id c = comment_id) (comments st));
    if decide (¬ is_user (user request) (Comment.author comment))
    then mret (Redirect (blog_post_detail post_id))
    else
      let form := mkForm (or_None (POST_data request)) None comment in
      match CommentForm_cleaned st form with
      | Some comment' =>
          modify (Comment_update comment');;
          mret (Redirect (blog_post_detail post_id))
      | None =>
          mret (Render "blog/comment.html"
                  [("comment", VComment comment); ("form", VCommentForm form)])
      end).

Definition delete_comment (request : HttpRequest) (post_id comment_id : Z)
    : View HttpResponse :=
  login_required request (λ _,
    st ← get_store;
    comment ← lift (get_object_or_404 "Comment"
                      (λ c, Comment.id c = comment_id) (comments st));
    if decide (¬ is_user (user request) (Comment.author comment))
    then mret (Redirect (blog_post_detail post_id))
    else if decide (method request = POST)
    then
      modify (Comment_delete comment);;
      mret (Redirect (blog_post_detail post_id))
    else
      mret (Render "blog/comment.html" [("comment", VComment comment)])).

Definition edit_profile (request : HttpRequest) : View HttpResponse :=
  login_required request (λ request_user,
    st ← get_store;
    profile ← lift (get_object_or_404 "User"
                      (λ u, User.username u = User.username request_user)
                      (users st));
    let form := mkForm (or_None (POST_data request)) None profile in
    match UserForm_cleaned st form with
    | Some profile' =>
        modify (User_update profile');;
        mret (Redirect (blog_profile (User.username request_user)))
    | None =>
        mret (Render "blog/user.html" [("form", VUserForm form)])
    end).
End writing_views.

(** ** A concrete instance of the collaborators, and sample data *)

(** Decimal digits with an optional sign: the part of Python's [int] on
    which the examples run. *)
Definition digit_of (a : ascii) : option Z :=
  let n := Z.of_N (N_of_ascii a) in
  if decide (48 ≤ n ≤ 57) then Some (n - 48) else None.

Fixpoint digits_value (acc : Z) (s : string) : option Z :=
  match s with
  | EmptyString => Some acc
  | String a rest =>
      match digit_of a with
      | Some d => digits_value (10 * acc + d) rest
      | None => None
      end
  end.

Definition decimal_int (s : string) : option Z :=
  match s with
  | EmptyString => None
  | String "-"%char (String _ _ as rest) => Z.opp <$> digits_value 0 rest
  | String "+"%char (String _ _ as rest) => digits_value 0 rest
  | _ => digits_value 0 s
  end.

(** Sample forms: a post needs a title and a text, a comment a text, a user
    a username. *)
Definition sample_PostForm_clean (st : Store) (data files : QueryDict)
    (instance : Post.t) : option Post.t :=
  match querydict_get "title" data, querydict_get "text" data with
  | Some title, Some text =>
      Some (Post.mk (Post.id instance) title text (Post.pub_date instance)
              (Post.is_published instance) (Post.author instance)
              (Post.category instance) (Post.location instance))
  | _, _ => None
  end.

Definition sample_CommentForm_clean (st : Store) (data : QueryDict)
    (instance : Comment.t) : option Comment.t :=
  match querydict_get "text" data with
  | Some text =>
      Some (Comment.mk (Comment.id instance) text (Comment.author instance)
              (Comment.post instance))
  | None => None
  end.

Definition sample_UserForm_clean (st : Store) (data : QueryDict)
    (instance : User.t) : option User.t :=
  match querydict_get "username" data with
  | Some name => Some (User.mk (User.id instance) name)
  | None => None
  end.

Definition sample_collaborators : Collaborators := {|
  py_int := decimal_int;
  PostForm_clean := sample_PostForm_clean;
  CommentForm_clean := sample_CommentForm_clean;
  UserForm_clean := sample_UserForm_clean
|}.

Definition alice : User.t := User.mk 1 "alice".
Definition bob : User.t := User.mk 2 "bob".

Definition news : Category.t := Category.mk 1 "news" true.
Definition drafts : Category.t := Category.mk 2 "drafts" false.

(** Posts of [alice]: a public one, a hidden one, one in an unpublished
    category, one dated after the sample clock, and a second public one
    with the date of the first. *)
Definition post_public : Post.t :=
  Post.mk 1 "hello" "first" 100 true 1 (Some 1) None.
Definition post_hidden : Post.t :=
  Post.mk 2 "draft" "wip" 90 false 1 (Some 1) None.
Definition post_in_drafts : Post.t :=
  Post.mk 3 "shelved" "later" 80 true 1 (Some 2) None.
Definition post_future : Post.t :=
  Post.mk 4 "soon" "scheduled" 500 true 1 (Some 1) None.
Definition post_twin : Post.t :=
  Post.mk 5 "again" "second" 100 true 1 (Some 1) None.

Definition comment_on_public : Comment.t := Comment.mk 1 "nice" 2 1.

Definition sample_store : Store :=
  mkStore [alice; bob] [news; drafts]
    [post_public; post_hidden; post_in_drafts; post_future; post_twin]
    [comment_on_public].

Definition sample_now : Z := 200.

Definition request_of (m : Method) (who : Requester) (get post : QueryDict)
    : HttpRequest :=
  mkRequest m who get post [].

(** * Properties *)

Section properties.
Context `{Database}.

(** ** Ordering by publication date *)

#[global] Instance newest_first_trans : Transitive newest_first.
Proof. unfold newest_first. intros r1 r2 r3 H12 H23. lia. Qed.


(** ** Membership in the querysets *)

Lemma row_posts_Post_objects st : row_post <$> Post_objects st = posts st.
Proof.
  unfold Post_objects. rewrite <- list_fmap_compose.
  rewrite <- (list_fmap_id (posts st)) at 2. by apply list_fmap_ext.
Qed.

Lemma row_posts_annotate st qs :
  row_post <$> annotate_comment_count st qs = row_post <$> qs.
Proof.
  unfold annotate_comment_count. rewrite <- list_fmap_compose.
  by apply list_fmap_ext.
Qed.

Lemma row_posts_filter (P : Post.t → Prop) (Q : Row → Prop)
    `{!∀ p, Decision (P p)} `{!∀ r, Decision (Q r)} (qs : QuerySet) :
  (∀ r, Q r ↔ P (row_post r)) →
  row_post <$> filter Q qs = filter P (row_post <$> qs).
Proof.
  intros HQ. induction qs as [|r rest IH]; [done|].
  rewrite fmap_cons, (filter_cons P), (filter_cons Q).
  destruct (decide (Q r)) as [Hq|Hq], (decide (P (row_post r))) as [Hp|Hp].
  - rewrite fmap_cons. f_equal. exact IH.
  - by apply HQ in Hq.
  - by apply HQ in Hp.
  - exact IH.
Qed.

Lemma row_posts_order_by qs :
  row_post <$> order_by_pub_date_desc qs ≡ₚ row_post <$> qs.
Proof. by rewrite order_by_pub_date_desc_perm. Qed.

Lemma row_posts_get_filtered_posts_qs st now :
  row_post <$> get_filtered_posts_qs st now
  = filter (publicly_visible st now) (posts st).
Proof.
  unfold get_filtered_posts_qs.
  rewrite (row_posts_filter (publicly_visible st now)
             (λ r, publicly_visible st now (row_post r))) by done.
  by rewrite row_posts_Post_objects.
Qed.

Lemma row_posts_index_posts st now :
  row_post <$> index_posts st now ≡ₚ filter (publicly_visible st now) (posts st).
Proof.
  unfold index_posts.
  by rewrite row_posts_order_by, row_posts_annotate,
    row_posts_get_filtered_posts_qs.
Qed.

(** ** Pagination *)

Section paginator_facts.
Context `{Collaborators}.

Lemma num_pages_ten (qs : QuerySet) :
  num_pages (mkPaginator qs 10) = Z.max 1 ((Z.of_nat (length qs) + 9) / 10).
Proof.
  unfold num_pages, count; simpl.
  destruct qs as [|r rest]; [done|].
  rewrite Z.sub_0_r, !Z.max_r; [f_equal; lia| |];
    simpl length; try lia.
  apply Z.div_le_lower_bound; lia.
Qed.

Lemma num_pages_ten_pos (qs : QuerySet) : 1 ≤ num_pages (mkPaginator qs 10).
Proof. rewrite num_pages_ten. lia. Qed.

(** The last page starts inside a queryset that has rows. *)
Lemma last_page_starts_inside (qs : QuerySet) :
  qs ≠ [] → 10 * (num_pages (mkPaginator qs 10) - 1) < Z.of_nat (length qs).
Proof.
  intros Hne. rewrite num_pages_ten.
  assert (0 < Z.of_nat (length qs)) by (destruct qs; simpl length; [done|lia]).
  pose proof (Z.div_mod (Z.of_nat (length qs) + 9) 10 ltac:(lia)).
  pose proof (Z.mod_pos_bound (Z.of_nat (length qs) + 9) 10 ltac:(lia)).
  lia.
Qed.

(** A valid page number yields the rows from [10 * (n - 1)] on, ten at
    most. *)
Lemma page_ten_valid (qs : QuerySet) (n : Z) :
  1 ≤ n ≤ num_pages (mkPaginator qs 10) →
  page (mkPaginator qs 10) (PyInt n)
  = Return (mkPage (take 10 (drop (Z.to_nat (10 * (n - 1))) qs)) n
              (mkPaginator qs 10)).
Proof.
  intros Hn. unfold page, validate_number; simpl int_of; cbv beta iota.
  rewrite decide_False, decide_False by lia.
  f_equal. f_equal. unfold slice, count; simpl.
  replace (Z.to_nat ((n - 1) * 10)) with (Z.to_nat (10 * (n - 1))) by lia.
  set (b := Z.to_nat (10 * (n - 1))).
  case_decide as Htop.
  - rewrite !take_ge; [done| |]; rewrite length_drop; lia.
  - f_equal. lia.
Qed.

(** [get_page] settles on a valid number and hands out that page. *)
Lemma get_page_ten (qs : QuerySet) (v : PyValue) :
  ∃ n, 1 ≤ n ≤ num_pages (mkPaginator qs 10)
       ∧ get_page (mkPaginator qs 10) v = page (mkPaginator qs 10) (PyInt n)
       ∧ (int_of v = None → n = 1)
       ∧ (∀ m, int_of v = Some m →
               (1 ≤ m ≤ num_pages (mkPaginator qs 10) → n = m)
               ∧ (num_pages (mkPaginator qs 10) < m
                  → n = num_pages (mkPaginator qs 10))).
Proof.
  pose proof (num_pages_ten_pos qs) as Hpos.
  unfold get_page, validate_number.
  destruct (int_of v) as [m|] eqn:Hv.
  - repeat case_decide.
    + eexists; split_and!; [| |done| |]; [lia..|done|].
      intros ? [= <-]; split; lia.
    + eexists; split_and!; [| |done| |]; [lia..|done|].
      intros ? [= <-]; split; lia.
    + exists m; split_and!; [lia..|done|done|].
      intros ? [= <-]; split; lia.
  - exists 1; split_and!; [lia..|done|done|done].
Qed.
End paginator_facts.

Section get_paginated_page_facts.
Context `{Collaborators}.

Lemma get_paginated_page_returns (request : HttpRequest) (queryset : QuerySet) :
  ∃ page_obj,
    get_paginated_page request queryset = Return page_obj
    ∧ paginator page_obj = mkPaginator queryset 10
    ∧ page_object_list page_obj ⊆ queryset
    ∧ page_object_list page_obj `sublist_of` queryset.
Proof.
  unfold get_paginated_page, NUMBER_OF_PAGINATOR_PAGES.
  destruct (get_page_ten queryset
              match page_param request with
              | Some s => PyStr s
              | None => PyNone
              end) as (n & Hn & -> & _).
  rewrite page_ten_valid by done.
  eexists; split; [done|]. split_and!; [done|simpl..].
  - etrans; [apply subseteq_take|apply subseteq_drop].
  - etrans; [apply sublist_take|apply sublist_drop].
Qed.

Lemma get_paginated_page_exact (request : HttpRequest) (queryset : QuerySet) :
  ∃ page_obj,
    get_paginated_page request queryset = Return page_obj
    ∧ paginator page_obj = mkPaginator queryset 10
    ∧ 1 ≤ number page_obj ≤ Z.max 1 ((Z.of_nat (length queryset) + 9) / 10)
    ∧ page_object_list page_obj
      = take 10 (drop (Z.to_nat (10 * (number page_obj - 1))) queryset).
Proof.
  unfold get_paginated_page, NUMBER_OF_PAGINATOR_PAGES.
  destruct (get_page_ten queryset
              match page_param request with
              | Some s => PyStr s
              | None => PyNone
              end) as (n & Hn & -> & _).
  rewrite page_ten_valid by done. rewrite num_pages_ten in Hn.
  eexists; split; [done|].
  split_and!; cbn [number paginator page_object_list]; first [done|lia].
Qed.

(** [QueryDict.get] against the pairs of the dictionary. *)
Lemma querydict_get_None key (d : QueryDict) :
  (∀ v, (key, v) ∉ d) → querydict_get key d = None.
Proof.
  induction d as [|[k v] rest IH]; [done|]. intros Habsent. simpl.
  rewrite IH by (intros w Hw; apply (Habsent w); by right).
  rewrite decide_False; [done|]. intros ->. apply (Habsent v). left.
Qed.

Lemma querydict_get_last key (d1 d2 : QueryDict) s :
  (∀ v, (key, v) ∉ d2) → querydict_get key (d1 ++ (key, s) :: d2) = Some s.
Proof.
  intros Habsent. induction d1 as [|[k v] rest IH]; simpl.
  - by rewrite (querydict_get_None _ _ Habsent), decide_True.
  - by rewrite IH.
Qed.

(** C6. [get_paginated_page] always hands out a page and raises nothing.
    The paginator is the queryset cut into pages of ten: the pages are
    numbered from 1 to the row count divided by ten, rounded up (1 for an
    empty queryset), page [n] holds the rows from position [10 * (n - 1)]
    on, ten at most, and a queryset with rows has no empty page.  When the
    query string has no [page] pair, or the last such pair does not parse
    as an integer, the page is the first; when it parses to the number of
    an existing page, it is that page; when it parses to an integer beyond
    the last page, it is the last page.  In particular a queryset of at
    most ten rows is handed out whole, whatever [page] says. *)
Theorem get_paginated_page_pages_of_ten (request : HttpRequest)
    (queryset : QuerySet) :
  ∃ page_obj,
    get_paginated_page request queryset = Return page_obj
    ∧ paginator page_obj = mkPaginator queryset NUMBER_OF_PAGINATOR_PAGES
    ∧ NUMBER_OF_PAGINATOR_PAGES = 10
    ∧ num_pages (paginator page_obj)
      = Z.max 1 ((Z.of_nat (length queryset) + 9) / 10)
    ∧ 1 ≤ number page_obj ≤ Z.max 1 ((Z.of_nat (length queryset) + 9) / 10)
    ∧ page_object_list page_obj
      = take 10 (drop (Z.to_nat (10 * (number page_obj - 1))) queryset)
    ∧ (length (page_object_list page_obj) ≤ 10)%nat
    ∧ (queryset ≠ [] → page_object_list page_obj ≠ [])
    ∧ ((∀ v, ("page", v) ∉ GET_data request) → number page_obj = 1)
    ∧ (∀ d1 d2 s,
         GET_data request = d1 ++ ("page", s) :: d2 →
         (∀ v, ("page", v) ∉ d2) →
         (py_int s = None → number page_obj = 1)
         ∧ (∀ n, py_int s = Some n →
              (1 ≤ n ≤ Z.max 1 ((Z.of_nat (length queryset) + 9) / 10) →
               number page_obj = n)
              ∧ (Z.max 1 ((Z.of_nat (length queryset) + 9) / 10) < n →
                 number page_obj
                 = Z.max 1 ((Z.of_nat (length queryset) + 9) / 10))))
    ∧ ((length queryset ≤ 10)%nat →
       number page_obj = 1 ∧ page_object_list page_obj = queryset).
Proof.
  unfold get_paginated_page, NUMBER_OF_PAGINATOR_PAGES.
  destruct (get_page_ten queryset
              match page_param request with
              | Some s => PyStr s
              | None => PyNone
              end) as (n & Hn & -> & Hnone & Hsome).
  rewrite page_ten_valid by done.
  rewrite num_pages_ten in Hn, Hsome.
  eexists; split; [done|].
  split_and!; cbn [number paginator page_object_list];
    [done|done|apply num_pages_ten|lia|lia|done|..].
  - rewrite length_take. lia.
  - intros Hne Hnil.
    pose proof (last_page_starts_inside queryset Hne) as Hlast.
    rewrite num_pages_ten in Hlast.
    apply (f_equal length) in Hnil.
    rewrite length_take, length_drop in Hnil. simpl length in Hnil. lia.
  - intros Habsent. apply Hnone. unfold page_param.
    by rewrite (querydict_get_None _ _ Habsent).
  - intros d1 d2 s Hget Habsent.
    assert (page_param request = Some s) as Hparam.
    { unfold page_param. rewrite Hget. by apply querydict_get_last. }
    rewrite Hparam in Hnone, Hsome. split; [by apply Hnone|].
    intros m Hm. by apply Hsome.
  - intros Hshort.
    assert ((Z.of_nat (length queryset) + 9) / 10 ≤ 1) as Hone.
    { apply Z.lt_succ_r, Z.div_lt_upper_bound; lia. }
    assert (n = 1) as -> by lia.
    split; [done|]. simpl. by rewrite drop_0, take_ge by lia.
Qed.
End get_paginated_page_facts.

(** ** Every listing is newest-first *)








(** ** Lookups *)

Section lookups.
Context {A : Type} (P : A → Prop) `{!∀ x, Decision (P x)}.

Lemma objects_get_DoesNotExist (table : list A) :
  objects_get P table = DoesNotExist ↔ ∀ x, x ∈ table → ¬ P x.
Proof.
  unfold objects_get. split.
  - destruct (filter P table) as [|y [|z rest]] eqn:Hf; try done.
    intros _ x Hx HP. by eapply filter_nil_not_elem_of.
  - intros Hnone.
    destruct (filter P table) as [|y rest] eqn:Hf; [done|].
    assert (y ∈ filter P table) as Hy by (rewrite Hf; left).
    apply list_elem_of_filter in Hy as [HP Hy]. by destruct (Hnone y).
Qed.

Lemma objects_get_Found (table : list A) (x : A) :
  objects_get P table = Found x → x ∈ table ∧ P x.
Proof.
  unfold objects_get.
  destruct (filter P table) as [|y [|z rest]] eqn:Hf; try done.
  intros [= ->].
  assert (x ∈ filter P table) as Hx by (rewrite Hf; left).
  apply list_elem_of_filter in Hx. tauto.
Qed.

Lemma get_object_or_404_Found model (table : list A) (x : A) :
  objects_get P table = Found x → get_object_or_404 model P table = Return x.
Proof. unfold get_object_or_404. by intros ->. Qed.

End lookups.

(** ** The profile page *)

Lemma row_posts_profile_posts_own st now request profile :
  is_user (user request) (User.id profile) →
  row_post <$> profile_posts st now request profile
  ≡ₚ filter (λ p, Post.author p = User.id profile) (posts st).
Proof.
  intros Hown. unfold profile_posts. rewrite decide_False by tauto.
  unfold get_posts; cbv beta zeta.
  rewrite row_posts_order_by,
    (row_posts_filter (λ p, Post.author p = User.id profile)
       (λ r, Post.author (row_post r) = User.id profile)) by done.
  by rewrite row_posts_annotate, row_posts_Post_objects.
Qed.

Lemma row_posts_profile_posts_other st now request profile :
  ¬ is_user (user request) (User.id profile) →
  row_post <$> profile_posts st now request profile
  ≡ₚ filter (λ p, Post.author p = User.id profile ∧ publicly_visible st now p)
       (posts st).
Proof.
  intros Hother. unfold profile_posts. rewrite decide_True by done.
  rewrite row_posts_order_by, row_posts_annotate,
    (row_posts_filter (λ p, Post.author p = User.id profile)
       (λ r, Post.author (row_post r) = User.id profile)) by done.
  by rewrite row_posts_get_filtered_posts_qs, list_filter_filter.
Qed.

(** ** The category page *)

Lemma row_posts_category_posts_qs st now category :
  row_post <$> category_posts_qs st now category
  ≡ₚ filter (λ p, Post.category p = Some (Category.id category)
                  ∧ publicly_visible st now p) (posts st).
Proof.
  unfold category_posts_qs.
  rewrite (row_posts_filter
             (λ p, Post.category p = Some (Category.id category))
             (λ r, Post.category (row_post r) = Some (Category.id category)))
    by done.
  rewrite row_posts_order_by, row_posts_get_filtered_posts_qs.
  by rewrite list_filter_filter.
Qed.

(** C7. [category_posts] answers 404 exactly when no stored category has
    the requested slug and is published; in particular it raises the 404 of
    [get_object_or_404] when every category with that slug is unpublished.
    When it renders, it renders the list template for a published category
    with that slug and a page of the queryset that holds each publicly
    visible stored post of that category once, and no other post. *)
Theorem category_posts_404_unless_published `{Collaborators} (st : Store)
    (now : Z) (request : HttpRequest) (category_slug : string) :
  (status_code (category_posts st now request category_slug) = 404
   ↔ ¬ ∃ c, c ∈ categories st ∧ Category.slug c = category_slug
            ∧ Category.is_published c = true)
  ∧ ((∀ c, c ∈ categories st → Category.slug c = category_slug →
           Category.is_published c = false) →
     category_posts st now request category_slug
     = Raise (Http404 "No Category matches the given query."))
  ∧ (∀ template context,
       category_posts st now request category_slug
       = Return (Render template context) →
       ∃ category page_obj,
         category ∈ categories st
         ∧ Category.slug category = category_slug
         ∧ Category.is_published category = true
         ∧ template = "blog/post_list.html"
         ∧ context = [("category", VCategory category);
                      ("page_obj", VPage page_obj)]
         ∧ paginator page_obj
           = mkPaginator (category_posts_qs st now category)
               NUMBER_OF_PAGINATOR_PAGES
         ∧ page_object_list page_obj ⊆ category_posts_qs st now category
         ∧ row_post <$> category_posts_qs st now category
           ≡ₚ filter (λ p, Post.category p = Some (Category.id category)
                           ∧ Post.is_published p = true
                           ∧ category_published st p
                           ∧ Post.pub_date p ≤ now) (posts st)).
Proof.
  unfold category_posts, get_object_or_404.
  destruct (objects_get _ (categories st)) as [|category|] eqn:Hget; simpl.
  - (* no row matches *)
    pose proof (proj1 (objects_get_DoesNotExist _ _) Hget) as Hnone.
    split_and!; [|done|done].
    split; [|done]. intros _ (c & Hc & Hslug & Hpub). by apply (Hnone c).
  - (* one row matches: the page is rendered *)
    apply objects_get_Found in Hget as (Hin & Hslug & Hpub).
    destruct (get_paginated_page_returns request
                (category_posts_qs st now category))
      as (page_obj & -> & Hpaginator & Hsub & _); simpl.
    split_and!.
    + split; [done|]. intros []. by exists category.
    + intros Hall. specialize (Hall category Hin Hslug). congruence.
    + intros template context [= <- <-].
      exists category, page_obj.
      split_and!; try done. apply row_posts_category_posts_qs.
  - (* several rows match: [get] raises MultipleObjectsReturned *)
    assert (∃ c, c ∈ categories st ∧ Category.slug c = category_slug
                 ∧ Category.is_published c = true) as Hex.
    { unfold objects_get in Hget.
      destruct (filter _ (categories st)) as [|c [|c' rest]] eqn:Hf; try done.
      assert (c ∈ filter (λ c, Category.slug c = category_slug
                               ∧ Category.is_published c = true)
                    (categories st)) as Hc by (rewrite Hf; left).
      apply list_elem_of_filter in Hc as [[??] ?]. by exists c. }
    split_and!; [|..|done].
    + split; [done|]. by intros [].
    + intros Hall. destruct Hex as (c & Hc & Hslug & Hpub).
      specialize (Hall c Hc Hslug). congruence.
Qed.

(** ** What the listing views render *)

Section listing_views.
Context `{Collaborators}.

Lemma index_renders st now request :
  ∃ page_obj,
    index st now request
    = Return (Render "blog/index.html" [("page_obj", VPage page_obj)])
    ∧ get_paginated_page request (index_posts st now) = Return page_obj.
Proof.
  unfold index.
  destruct (get_paginated_page_exact request (index_posts st now))
    as (page_obj & Hpage & _).
  exists page_obj. by rewrite Hpage.
Qed.

Lemma category_posts_renders st now request category_slug template context :
  category_posts st now request category_slug
  = Return (Render template context) →
  ∃ category page_obj,
    objects_get (λ c, Category.slug c = category_slug
                      ∧ Category.is_published c = true) (categories st)
    = Found category
    ∧ template = "blog/post_list.html"
    ∧ context = [("category", VCategory category);
                 ("page_obj", VPage page_obj)]
    ∧ get_paginated_page request (category_posts_qs st now category)
      = Return page_obj.
Proof.
  unfold category_posts, get_object_or_404.
  destruct (objects_get _ (categories st)) as [|category|]; simpl; [done| |done].
  destruct (get_paginated_page_exact request
              (category_posts_qs st now category))
    as (page_obj & Hpage & _).
  rewrite Hpage; simpl. intros [= <- <-]. by exists category, page_obj.
Qed.

Lemma profile_renders st now request username template context :
  profile st now request username = Return (Render template context) →
  ∃ U page_obj,
    objects_get (λ u, User.username u = username) (users st) = Found U
    ∧ template = "blog/profile.html"
    ∧ context = [("profile", VUser U); ("page_obj", VPage page_obj)]
    ∧ get_paginated_page request (profile_posts st now request U)
      = Return page_obj.
Proof.
  unfold profile, get_object_or_404.
  destruct (objects_get _ (users st)) as [|U|]; simpl; [done| |done].
  destruct (get_paginated_page_exact request (profile_posts st now request U))
    as (page_obj & Hpage & _).
  rewrite Hpage; simpl. intros [= <- <-]. by exists U, page_obj.
Qed.

(** What [get_paginated_page] returned, read off the page itself. *)
Lemma page_of_queryset request qs page_obj :
  get_paginated_page request qs = Return page_obj →
  paginator page_obj = mkPaginator qs 10
  ∧ get_paginated_page request (object_list (paginator page_obj))
    = Return page_obj
  ∧ per_page (paginator page_obj) = 10
  ∧ 1 ≤ number page_obj
      ≤ Z.max 1 ((Z.of_nat (length (object_list (paginator page_obj))) + 9)
                 / 10)
  ∧ page_object_list page_obj
    = take 10 (drop (Z.to_nat (10 * (number page_obj - 1)))
                 (object_list (paginator page_obj))).
Proof.
  intros Hpage.
  destruct (get_paginated_page_exact request qs)
    as (page_obj' & Hpage' & Hpaginator & Hnumber & Hrows).
  rewrite Hpage in Hpage'. injection Hpage' as <-.
  rewrite Hpaginator. cbn [object_list per_page].
  split_and!; first [done|lia].
Qed.

(** C1. [index] always renders the index template with a page of a
    paginator of ten rows per page.  A post is among the rows that
    paginator holds (the feed) exactly when it is a stored post that is
    published, whose category is a published one, and whose publication
    date is not after the current time; each such post is there once.  The
    rows on the page are the ten rows of the feed from position
    [10 * (number - 1)] on, for a page number of the feed: the page
    [get_paginated_page] picks for the request. *)
Theorem index_feed_iff_publicly_visible (st : Store) (now : Z)
    (request : HttpRequest) :
  ∃ page_obj,
    index st now request
    = Return (Render "blog/index.html" [("page_obj", VPage page_obj)])
    ∧ (∀ p, p ∈ row_post <$> object_list (paginator page_obj)
            ↔ p ∈ posts st
              ∧ Post.is_published p = true
              ∧ (∃ c, c ∈ categories st
                      ∧ Post.category p = Some (Category.id c)
                      ∧ Category.is_published c = true)
              ∧ Post.pub_date p ≤ now)
    ∧ row_post <$> object_list (paginator page_obj)
      ≡ₚ filter (λ p, Post.is_published p = true
                      ∧ category_published st p
                      ∧ Post.pub_date p ≤ now) (posts st)
    ∧ paginator page_obj = mkPaginator (index_posts st now) 10
    ∧ get_paginated_page request (object_list (paginator page_obj))
      = Return page_obj
    ∧ per_page (paginator page_obj) = 10
    ∧ 1 ≤ number page_obj
        ≤ Z.max 1 ((Z.of_nat (length (object_list (paginator page_obj))) + 9)
                   / 10)
    ∧ page_object_list page_obj
      = take 10 (drop (Z.to_nat (10 * (number page_obj - 1)))
                   (object_list (paginator page_obj))).
Proof.
  destruct (index_renders st now request) as (page_obj & Hindex & Hpage).
  apply page_of_queryset in Hpage
    as (Hpaginator & Hagain & Hten & Hnumber & Hrows).
  exists page_obj. split; [done|].
  rewrite Hpaginator in Hagain, Hnumber, Hrows |- *.
  cbn [object_list per_page] in *.
  split_and!; try first [done|lia].
  - intros p. rewrite row_posts_index_posts, list_elem_of_filter.
    unfold publicly_visible, category_published. tauto.
  - apply row_posts_index_posts.
Qed.

(** C4. For a user that [profile] finds under the requested name, the view
    renders the profile template with that user and a page of a paginator
    of ten rows per page.  When the requester is that user, the rows that
    paginator holds are the stored posts of the user, each once, whatever
    their publication flag, category or date; for any other requester they
    are the stored posts of the user that are publicly visible, each once,
    and no other.  The rows on the page are the ten rows of that listing
    from position [10 * (number - 1)] on, for a page number of the
    listing: the page [get_paginated_page] picks for the request. *)
Theorem profile_lists_own_all_others_public (st : Store)
    (now : Z) (request : HttpRequest) (username : string) (U : User.t) :
  objects_get (λ u, User.username u = username) (users st) = Found U →
  ∃ page_obj,
    profile st now request username
    = Return (Render "blog/profile.html"
                [("profile", VUser U); ("page_obj", VPage page_obj)])
    ∧ paginator page_obj
      = mkPaginator (profile_posts st now request U) NUMBER_OF_PAGINATOR_PAGES
    ∧ (is_user (user request) (User.id U) →
       row_post <$> object_list (paginator page_obj)
       ≡ₚ filter (λ p, Post.author p = User.id U) (posts st))
    ∧ (¬ is_user (user request) (User.id U) →
       row_post <$> object_list (paginator page_obj)
       ≡ₚ filter (λ p, Post.author p = User.id U
                       ∧ Post.is_published p = true
                       ∧ category_published st p
                       ∧ Post.pub_date p ≤ now) (posts st))
    ∧ get_paginated_page request (object_list (paginator page_obj))
      = Return page_obj
    ∧ per_page (paginator page_obj) = 10
    ∧ 1 ≤ number page_obj
        ≤ Z.max 1 ((Z.of_nat (length (object_list (paginator page_obj))) + 9)
                   / 10)
    ∧ page_object_list page_obj
      = take 10 (drop (Z.to_nat (10 * (number page_obj - 1)))
                   (object_list (paginator page_obj))).
Proof.
  intros HU.
  destruct (get_paginated_page_exact request (profile_posts st now request U))
    as (page_obj & Hpage & _).
  exists page_obj. split.
  { unfold profile. rewrite (get_object_or_404_Found _ _ _ _ HU). simpl.
    by rewrite Hpage. }
  apply page_of_queryset in Hpage
    as (Hpaginator & Hagain & Hten & Hnumber & Hrows).
  rewrite Hpaginator in Hagain, Hnumber, Hrows |- *.
  cbn [object_list per_page] in *.
  split_and!; try first [done|lia].
  - apply row_posts_profile_posts_own.
  - apply row_posts_profile_posts_other.
Qed.

End listing_views.

(** ** The detail page *)

Lemma post_detail_absent st request post_id :
  objects_get (λ p, Post.id p = post_id) (posts st) = DoesNotExist →
  post_detail st request post_id = Raise (Http404 "Пост не найден").
Proof. unfold post_detail. by intros ->. Qed.

Lemma post_detail_hidden st request post_id post :
  objects_get (λ p, Post.id p = post_id) (posts st) = Found post →
  Post.is_published post = false →
  ¬ is_user (user request) (Post.author post) →
  post_detail st request post_id = Raise (Http404 "Пост не найден").
Proof.
  unfold post_detail. intros -> Hpub Hother. by rewrite decide_True.
Qed.

(** The guard of [post_detail] reads the publication flag and the author
    and nothing else: a post is rendered for its author, and for everybody
    when its flag is set. *)
Lemma post_detail_rendered st request post_id post :
  objects_get (λ p, Post.id p = post_id) (posts st) = Found post →
  Post.is_published post = true ∨ is_user (user request) (Post.author post) →
  post_detail st request post_id
  = Return (Render "blog/post_detail.html"
              [("post", VPost post);
               ("form", VCommentForm
                          (mkForm (or_None (POST_data request)) None Comment.blank));
               ("comments", VComments
                              (filter (λ c, Comment.post c = Post.id post)
                                 (comments st)))]).
Proof.
  unfold post_detail. intros -> Hshown. rewrite decide_False; [done|].
  intros [Hpub Hother]. destruct Hshown; [congruence|done].
Qed.

(** C2. On the sample store, whose clock reads 200, an anonymous visitor
    asks [post_detail] for post 4 (published flag set, dated 500) and for
    post 3 (published flag set, in the unpublished category): neither post
    is publicly visible, neither is in the index feed, and both requests
    are answered with the rendered post, status 200, not with a 404 as the
    listing views' visibility rule would have it.  Only post 2, whose own flag is off, gets the 404; the author gets
    all three rendered. *)
Theorem post_detail_renders_unlisted_posts_for_strangers :
  ¬ publicly_visible sample_store sample_now post_future
  ∧ ¬ publicly_visible sample_store sample_now post_in_drafts
  ∧ (post_future ∉ row_post <$> index_posts sample_store sample_now)
  ∧ (post_in_drafts ∉ row_post <$> index_posts sample_store sample_now)
  ∧ status_code (post_detail sample_store (request_of GET AnonymousUser [] []) 4)
    = 200
  ∧ status_code (post_detail sample_store (request_of GET AnonymousUser [] []) 3)
    = 200
  ∧ status_code (post_detail sample_store (request_of GET AnonymousUser [] []) 2)
    = 404
  ∧ Forall (λ post_id,
              status_code (post_detail sample_store
                             (request_of GET (Authenticated alice) [] [])
                             post_id) = 200) [2; 3; 4].
Proof.
  assert (¬ publicly_visible sample_store sample_now post_future) as Hfuture.
  { intros (_ & _ & Hdate). vm_compute in Hdate. by apply Hdate. }
  assert (¬ publicly_visible sample_store sample_now post_in_drafts) as Hdrafts.
  { intros (_ & (c & Hc & Hcat & Hpub) & _).
    unfold sample_store in Hc; simpl in Hc.
    rewrite !elem_of_cons, elem_of_nil in Hc.
    destruct Hc as [->|[->|[]]]; [by inversion Hcat|by inversion Hpub]. }
  split_and!; [done|done|..].
  - rewrite row_posts_index_posts, list_elem_of_filter. tauto.
  - rewrite row_posts_index_posts, list_elem_of_filter. tauto.
  - by vm_compute.
  - by vm_compute.
  - by vm_compute.
  - repeat constructor.
Qed.

(** C10. A requester who is not the author gets from [post_detail], for a
    stored post whose publication flag is off, the very result a request
    for an absent post id gets: the same [Http404] with the same message,
    status 404. *)
Theorem post_detail_hidden_same_as_absent (st st' : Store)
    (request : HttpRequest) (post_id absent_id : Z) (post : Post.t) :
  objects_get (λ p, Post.id p = post_id) (posts st) = Found post →
  Post.is_published post = false →
  ¬ is_user (user request) (Post.author post) →
  objects_get (λ p, Post.id p = absent_id) (posts st') = DoesNotExist →
  post_detail st request post_id = post_detail st' request absent_id
  ∧ post_detail st request post_id = Raise (Http404 "Пост не найден")
  ∧ status_code (post_detail st request post_id) = 404.
Proof.
  intros Hfound Hpub Hother Habsent.
  rewrite (post_detail_hidden _ _ _ _ Hfound Hpub Hother),
    (post_detail_absent _ _ _ Habsent).
  done.
Qed.

(** ** Views that write *)

(** Unfolds a writing view down to its lookups and guards. *)
Ltac run_view :=
  unfold login_required, mbind, View_bind, mret, View_ret, get_store, lift,
    modify;
  cbv beta iota.

Section writing_view_facts.
Context `{Collaborators}.

Lemma delete_row_removes {A} (pk : A → Z) (x : A) (table : list A) :
  x ∉ delete_row pk (pk x) table.
Proof. unfold delete_row. rewrite list_elem_of_filter. tauto. Qed.

Lemma update_row_writes {A} (pk : A → Z) (x y : A) (table : list A) :
  y ∈ table → pk y = pk x → x ∈ update_row pk x table.
Proof.
  intros Hy Hpk. unfold update_row. apply list_elem_of_fmap.
  exists y. by rewrite decide_True.
Qed.

(** C3. An authenticated requester who is not the author of the post
    found under [post_id] gets from [edit_post] and [delete_post] a
    redirect to that post's detail page and the store as it was; one who
    is not the author of the comment found under [comment_id] gets from
    [edit_comment] and [delete_comment] a redirect to the detail page of
    [post_id] and the store as it was.  A redirect carries status 302. *)
Theorem non_author_edit_delete_only_redirects (st : Store)
    (request : HttpRequest) (u : User.t) (post_id comment_id : Z) :
  user request = Authenticated u →
  (∀ post,
     objects_get (λ p, Post.id p = post_id) (posts st) = Found post →
     Post.author post ≠ User.id u →
     edit_post request post_id st
     = (Return (Redirect (blog_post_detail post_id)), st)
     ∧ delete_post request post_id st
       = (Return (Redirect (blog_post_detail post_id)), st))
  ∧ (∀ comment,
       objects_get (λ c, Comment.id c = comment_id) (comments st)
       = Found comment →
       Comment.author comment ≠ User.id u →
       edit_comment request post_id comment_id st
       = (Return (Redirect (blog_post_detail post_id)), st)
       ∧ delete_comment request post_id comment_id st
         = (Return (Redirect (blog_post_detail post_id)), st))
  ∧ status_code (Return (Redirect (blog_post_detail post_id))) = 302.
Proof.
  intros Huser. split_and!; [| |done].
  - intros post Hfound Hother.
    unfold edit_post, delete_post. run_view. rewrite Huser.
    rewrite (get_object_or_404_Found _ _ _ _ Hfound).
    rewrite !decide_True by (simpl; congruence). done.
  - intros comment Hfound Hother.
    unfold edit_comment, delete_comment. run_view. rewrite Huser.
    rewrite (get_object_or_404_Found _ _ _ _ Hfound).
    rewrite !decide_True by (simpl; congruence). done.
Qed.

(** C9. [edit_comment] and [delete_comment] find the comment by
    [comment_id] alone.  For the author of the comment found, whatever
    [post_id] the URL carries (the comment's own post or any other): a
    valid form makes [edit_comment] write the cleaned comment and a POST
    makes [delete_comment] remove the comment, and either answers with a
    redirect to the detail page of that [post_id]. *)
Theorem comment_views_never_check_post_id (st : Store)
    (request : HttpRequest) (u : User.t) (post_id comment_id : Z)
    (comment : Comment.t) :
  user request = Authenticated u →
  objects_get (λ c, Comment.id c = comment_id) (comments st) = Found comment →
  Comment.author comment = User.id u →
  (∀ comment',
     CommentForm_cleaned st (mkForm (or_None (POST_data request)) None comment)
     = Some comment' →
     edit_comment request post_id comment_id st
     = (Return (Redirect (blog_post_detail post_id)),
        Comment_update comment' st)
     ∧ (Comment.id comment' = comment_id →
        comment' ∈ comments (Comment_update comment' st)))
  ∧ (method request = POST →
     delete_comment request post_id comment_id st
     = (Return (Redirect (blog_post_detail post_id)),
        Comment_delete comment st)
     ∧ comment ∉ comments (Comment_delete comment st)).
Proof.
  intros Huser Hfound Hauthor.
  pose proof (objects_get_Found _ _ _ Hfound) as [Hin Hid].
  split.
  - intros comment' Hclean. split.
    + unfold edit_comment. run_view. rewrite Huser.
      rewrite (get_object_or_404_Found _ _ _ _ Hfound).
      rewrite decide_False by (simpl; intros Hne; by apply Hne).
      by rewrite Hclean.
    + intros Hid'. simpl. apply (update_row_writes _ _ comment); congruence.
  - intros Hpost. split.
    + unfold delete_comment. run_view. rewrite Huser.
      rewrite (get_object_or_404_Found _ _ _ _ Hfound).
      rewrite decide_False by (simpl; intros Hne; by apply Hne).
      by rewrite decide_True.
    + simpl. apply delete_row_removes.
Qed.
End writing_view_facts.

(** ** Invalid forms *)

Section invalid_forms.
Context `{Collaborators}.

(** C5, as amended. For an authenticated requester and a form that does
    not validate: [create_post], [edit_post] (on a post of the
    requester), [edit_comment] (on a comment of the requester) and
    [edit_profile] render their own form template again with the form
    that was submitted, and leave the store as it was; [add_comment]
    leaves the store as it was too, and redirects to the detail page of
    the post. *)
Theorem invalid_form_rerenders_except_add_comment (st : Store)
    (request : HttpRequest) (u : User.t) :
  user request = Authenticated u →
  (∀ form,
     form = mkForm (or_None (POST_data request)) (or_None (FILES request))
              Post.blank →
     PostForm_cleaned st form = None →
     create_post request st
     = (Return (Render "blog/create.html" [("form", VPostForm form)]), st))
  ∧ (∀ post_id post form,
       objects_get (λ p, Post.id p = post_id) (posts st) = Found post →
       Post.author post = User.id u →
       form = mkForm (or_None (POST_data request)) None post →
       PostForm_cleaned st form = None →
       edit_post request post_id st
       = (Return (Render "blog/create.html" [("form", VPostForm form)]), st))
  ∧ (∀ post_id comment_id comment form,
       objects_get (λ c, Comment.id c = comment_id) (comments st)
       = Found comment →
       Comment.author comment = User.id u →
       form = mkForm (or_None (POST_data request)) None comment →
       CommentForm_cleaned st form = None →
       edit_comment request post_id comment_id st
       = (Return (Render "blog/comment.html"
                    [("comment", VComment comment);
                     ("form", VCommentForm form)]), st))
  ∧ (∀ profile form,
       objects_get (λ v, User.username v = User.username u) (users st)
       = Found profile →
       form = mkForm (or_None (POST_data request)) None profile →
       UserForm_cleaned st form = None →
       edit_profile request st
       = (Return (Render "blog/user.html" [("form", VUserForm form)]), st))
  ∧ (∀ post_id post,
       objects_get (λ p, Post.id p = post_id) (posts st) = Found post →
       CommentForm_cleaned st
         (mkForm (or_None (POST_data request)) None Comment.blank) = None →
       add_comment request post_id st
       = (Return (Redirect (blog_post_detail post_id)), st)).
Proof.
  intros Huser. split_and!.
  - intros form -> Hinvalid.
    unfold create_post. run_view. by rewrite Huser, Hinvalid.
  - intros post_id post form Hfound Hauthor -> Hinvalid.
    unfold edit_post. run_view. rewrite Huser.
    rewrite (get_object_or_404_Found _ _ _ _ Hfound).
    rewrite decide_False by (simpl; intros Hne; by apply Hne).
    by rewrite Hinvalid.
  - intros post_id comment_id comment form Hfound Hauthor -> Hinvalid.
    unfold edit_comment. run_view. rewrite Huser.
    rewrite (get_object_or_404_Found _ _ _ _ Hfound).
    rewrite decide_False by (simpl; intros Hne; by apply Hne).
    by rewrite Hinvalid.
  - intros profile form Hfound -> Hinvalid.
    unfold edit_profile. run_view. rewrite Huser.
    rewrite (get_object_or_404_Found _ _ _ _ Hfound).
    by rewrite Hinvalid.
  - intros post_id post Hfound Hinvalid.
    unfold add_comment. run_view. rewrite Huser.
    rewrite (get_object_or_404_Found _ _ _ _ Hfound).
    by rewrite Hinvalid.
Qed.
End invalid_forms.

(** C5, as stated, fails: [bob] posts a comment form without its text
    field to the sample post 1.  The form does not validate, and
    [add_comment] answers with a redirect, not with a rendered template. *)
Lemma add_comment_invalid_form_is_not_rerendered :
  ¬ (∀ (C : Collaborators) (st : Store) (request : HttpRequest) (u : User.t)
       (post_id : Z) (post : Post.t),
       user request = Authenticated u →
       objects_get (λ p, Post.id p = post_id) (posts st) = Found post →
       CommentForm_cleaned st
         (mkForm (or_None (POST_data request)) None Comment.blank) = None →
       ∃ template context,
         add_comment request post_id st
         = (Return (Render template context), st)).
Proof.
  intros Hall.
  destruct (Hall sample_collaborators sample_store
              (request_of POST (Authenticated bob) [] [("body", "hello")])
              bob 1 post_public eq_refl eq_refl eq_refl)
    as (template & context & Hrender).
  vm_compute in Hrender. discriminate Hrender.
Qed.

(** * Further properties of the views *)

(** ** Lookups and table updates *)

Section table_facts.
Context {A : Type} (P : A → Prop) `{!∀ x, Decision (P x)}.

Lemma objects_get_Found_filter (table : list A) (x : A) :
  objects_get P table = Found x ↔ filter P table = [x].
Proof.
  unfold objects_get.
  destruct (filter P table) as [|y [|z rest]]; split; intros Heq;
    by inversion Heq.
Qed.

Lemma filter_none_complement (table : list A) :
  filter P table = [] → filter (λ x, ¬ P x) table = table.
Proof.
  induction table as [|a rest IH]; [done|].
  rewrite filter_cons, (filter_cons (λ x, ¬ P x)).
  destruct (decide (P a)) as [Ha|Ha]; [done|].
  intros Hrest. rewrite decide_True by done. by rewrite IH.
Qed.

(** Deleting the one row that matches [P] takes one row away from every
    selection that row belongs to, and none from the others. *)
Lemma length_filter_without_one (Q : A → Prop) `{!∀ x, Decision (Q x)}
    (table : list A) (x : A) :
  filter P table = [x] →
  length (filter Q table)
  = (length (filter Q (filter (λ y, ¬ P y) table))
     + if decide (Q x) then 1 else 0)%nat.
Proof.
  induction table as [|a rest IH]; [done|].
  rewrite (filter_cons P), (filter_cons (λ y, ¬ P y)), (filter_cons Q).
  destruct (decide (P a)) as [Ha|Ha].
  - intros [= -> Hrest].
    destruct (decide (¬ P x)) as [Hn|_]; [by destruct Hn|].
    rewrite (filter_none_complement _ Hrest).
    destruct (decide (Q x)); simpl; lia.
  - intros Hrest.
    destruct (decide (¬ P a)) as [_|Hn]; [|by destruct Hn].
    rewrite (filter_cons Q). specialize (IH Hrest).
    destruct (decide (Q a)); simpl; lia.
Qed.
End table_facts.

Lemma update_row_filter_pk {A} (pk : A → Z) (x : A) (table : list A) :
  filter (λ y, pk y = pk x) (update_row pk x table)
  = (λ _, x) <$> filter (λ y, pk y = pk x) table.
Proof.
  unfold update_row. induction table as [|a rest IH]; [done|].
  rewrite fmap_cons, !(filter_cons (λ y, pk y = pk x)).
  destruct (decide (pk a = pk x)) as [Ha|Ha].
  - rewrite decide_True by done. rewrite fmap_cons. by f_equal.
  - rewrite decide_False by done. exact IH.
Qed.

Lemma update_row_other {A} (pk : A → Z) (x y : A) (table : list A) :
  pk y ≠ pk x → y ∈ update_row pk x table ↔ y ∈ table.
Proof.
  intros Hne. unfold update_row. rewrite list_elem_of_fmap. split.
  - intros (z & -> & Hz). by case_decide.
  - intros Hy. exists y. by rewrite decide_False.
Qed.

Lemma update_row_length {A} (pk : A → Z) (x : A) (table : list A) :
  length (update_row pk x table) = length table.
Proof. unfold update_row. by rewrite length_fmap. Qed.

(** ** Guards of the views that write *)

Section guards.
Context `{Collaborators}.

(** X1. Every view under [login_required] answers an anonymous visitor
    with a redirect to the login page, whatever the arguments and the
    submitted data, and leaves the store as it was. *)
Theorem anonymous_visitor_is_sent_to_login (st : Store)
    (request : HttpRequest) (post_id comment_id : Z) :
  user request = AnonymousUser →
  Forall (λ view : View HttpResponse,
            view st = (Return (Redirect login_page), st))
    [create_post request; edit_post request post_id;
     delete_post request post_id; add_comment request post_id;
     edit_comment request post_id comment_id;
     delete_comment request post_id comment_id; edit_profile request].
Proof.
  intros Hanon.
  repeat constructor;
    unfold create_post, edit_post, delete_post, add_comment, edit_comment,
      delete_comment, edit_profile, login_required;
    by rewrite Hanon.
Qed.

(** X2. For a logged-in requester, [edit_post], [delete_post] and
    [add_comment] raise the 404 of [get_object_or_404] when no post has the
    requested id, and [edit_comment] and [delete_comment] raise it when no
    comment has the requested id; the store stays as it was, whatever was
    submitted. *)
Theorem missing_target_is_404 (st : Store) (request : HttpRequest)
    (u : User.t) (post_id comment_id : Z) :
  user request = Authenticated u →
  ((∀ p, p ∈ posts st → Post.id p ≠ post_id) →
   Forall (λ view : View HttpResponse,
             view st = (Raise (Http404 "No Post matches the given query."), st))
     [edit_post request post_id; delete_post request post_id;
      add_comment request post_id])
  ∧ ((∀ c, c ∈ comments st → Comment.id c ≠ comment_id) →
     Forall (λ view : View HttpResponse,
               view st
               = (Raise (Http404 "No Comment matches the given query."), st))
       [edit_comment request post_id comment_id;
        delete_comment request post_id comment_id]).
Proof.
  intros Huser. split.
  - intros Hnone.
    apply (objects_get_DoesNotExist (λ p, Post.id p = post_id)) in Hnone.
    repeat constructor;
      unfold edit_post, delete_post, add_comment; run_view; rewrite Huser;
      unfold get_object_or_404; by rewrite Hnone.
  - intros Hnone.
    apply (objects_get_DoesNotExist (λ c, Comment.id c = comment_id)) in Hnone.
    repeat constructor;
      unfold edit_comment, delete_comment; run_view; rewrite Huser;
      unfold get_object_or_404; by rewrite Hnone.
Qed.

(** X3. The two delete views delete on POST only.  For the author of the
    object found, any other method gets the confirmation page rendered
    ([blog/create.html] with the form on the post, [blog/comment.html] with
    the comment) and the store is left as it was. *)
Theorem delete_views_only_delete_on_POST (st : Store) (request : HttpRequest)
    (u : User.t) (post_id comment_id : Z) :
  user request = Authenticated u →
  method request ≠ POST →
  (∀ post,
     objects_get (λ p, Post.id p = post_id) (posts st) = Found post →
     Post.author post = User.id u →
     delete_post request post_id st
     = (Return (Render "blog/create.html"
                  [("form", VPostForm
                              (mkForm (or_None (POST_data request)) None post))]),
        st))
  ∧ (∀ comment,
       objects_get (λ c, Comment.id c = comment_id) (comments st)
       = Found comment →
       Comment.author comment = User.id u →
       delete_comment request post_id comment_id st
       = (Return (Render "blog/comment.html" [("comment", VComment comment)]),
          st)).
Proof.
  intros Huser Hmethod. split.
  - intros post Hfound Hauthor.
    unfold delete_post. run_view. rewrite Huser.
    rewrite (get_object_or_404_Found _ _ _ _ Hfound).
    rewrite decide_False by (simpl; intros Hne; by apply Hne).
    by rewrite decide_False.
  - intros comment Hfound Hauthor.
    unfold delete_comment. run_view. rewrite Huser.
    rewrite (get_object_or_404_Found _ _ _ _ Hfound).
    rewrite decide_False by (simpl; intros Hne; by apply Hne).
    by rewrite decide_False.
Qed.
End guards.

(** ** What each view leaves alone *)

(** Runs a writing view through every branch of its guards. *)
Ltac through_view :=
  unfold create_post, edit_post, delete_post, add_comment, edit_comment,
    delete_comment, edit_profile;
  run_view;
  destruct (user _); [done|];
  try (destruct (get_object_or_404 _ _ _); [|done]);
  repeat case_decide; try done;
  try (destruct (PostForm_cleaned _ _));
  try (destruct (CommentForm_cleaned _ _));
  try (destruct (UserForm_cleaned _ _));
  done.

Section frames.
Context `{Collaborators}.

(** X4. Whatever the request and the outcome: no view touches the category
    table; only [edit_profile] touches the user table; the comment views
    and [edit_profile] never touch the post table; [create_post],
    [edit_post] and [edit_profile] never touch the comment table. *)
Theorem views_leave_other_tables_alone (st : Store) (request : HttpRequest)
    (post_id comment_id : Z) :
  Forall (λ view : View HttpResponse, categories (view st).2 = categories st)
    [create_post request; edit_post request post_id;
     delete_post request post_id; add_comment request post_id;
     edit_comment request post_id comment_id;
     delete_comment request post_id comment_id; edit_profile request]
  ∧ Forall (λ view : View HttpResponse, users (view st).2 = users st)
      [create_post request; edit_post request post_id;
       delete_post request post_id; add_comment request post_id;
       edit_comment request post_id comment_id;
       delete_comment request post_id comment_id]
  ∧ Forall (λ view : View HttpResponse, posts (view st).2 = posts st)
      [add_comment request post_id; edit_comment request post_id comment_id;
       delete_comment request post_id comment_id; edit_profile request]
  ∧ Forall (λ view : View HttpResponse, comments (view st).2 = comments st)
      [create_post request; edit_post request post_id; edit_profile request].
Proof.
  split_and!; repeat constructor; through_view.
Qed.
End frames.

(** ** What a successful write leaves in the store *)

Section successful_writes.
Context `{Collaborators}.

(** X5. When the author of the post found under [post_id] sends a POST to
    [delete_post], the view redirects to the index, the post table keeps
    exactly the rows with another id, in their order, and from then on
    [post_detail] answers every requester, the author included, with the
    404 of a missing post. *)
Theorem delete_post_removes_the_post (st : Store) (request : HttpRequest)
    (u : User.t) (post_id : Z) (post : Post.t) :
  user request = Authenticated u →
  objects_get (λ p, Post.id p = post_id) (posts st) = Found post →
  Post.author post = User.id u →
  method request = POST →
  (delete_post request post_id st).1 = Return (Redirect blog_index)
  ∧ posts (delete_post request post_id st).2
    = filter (λ p, Post.id p ≠ post_id) (posts st)
  ∧ (∀ request',
       post_detail (delete_post request post_id st).2 request' post_id
       = Raise (Http404 "Пост не найден")).
Proof.
  intros Huser Hfound Hauthor Hmethod.
  pose proof (objects_get_Found _ _ _ Hfound) as [_ Hid].
  assert (delete_post request post_id st
          = (Return (Redirect blog_index), Post_delete post st)) as ->.
  { unfold delete_post. run_view. rewrite Huser.
    rewrite (get_object_or_404_Found _ _ _ _ Hfound).
    rewrite decide_False by (simpl; intros Hne; by apply Hne).
    by rewrite decide_True. }
  simpl. unfold delete_row. rewrite Hid. split_and!; [done|done|].
  intros request'. apply post_detail_absent.
  apply objects_get_DoesNotExist. intros p Hp.
  apply list_elem_of_filter in Hp as [Hne _]. congruence.
Qed.

(** X6. When the author of the comment found under [comment_id] sends a
    POST to [delete_comment], the view redirects to the detail page of
    [post_id], the comment table keeps exactly the rows with another id,
    and the comment count of the post the comment belonged to drops by one
    while every other post's count stays. *)
Theorem delete_comment_removes_one_comment (st : Store)
    (request : HttpRequest) (u : User.t) (post_id comment_id : Z)
    (comment : Comment.t) :
  user request = Authenticated u →
  objects_get (λ c, Comment.id c = comment_id) (comments st) = Found comment →
  Comment.author comment = User.id u →
  method request = POST →
  (delete_comment request post_id comment_id st).1
  = Return (Redirect (blog_post_detail post_id))
  ∧ comments (delete_comment request post_id comment_id st).2
    = filter (λ c, Comment.id c ≠ comment_id) (comments st)
  ∧ (∀ p,
       count_comments st p
       = (count_comments (delete_comment request post_id comment_id st).2 p
          + if decide (Comment.post comment = Post.id p) then 1 else 0)%nat).
Proof.
  intros Huser Hfound Hauthor Hmethod.
  pose proof (objects_get_Found _ _ _ Hfound) as [_ Hid].
  assert (delete_comment request post_id comment_id st
          = (Return (Redirect (blog_post_detail post_id)),
             Comment_delete comment st)) as ->.
  { unfold delete_comment. run_view. rewrite Huser.
    rewrite (get_object_or_404_Found _ _ _ _ Hfound).
    rewrite decide_False by (simpl; intros Hne; by apply Hne).
    by rewrite decide_True. }
  simpl. unfold delete_row. rewrite Hid. split_and!; [done|done|].
  intros p. unfold count_comments; simpl. unfold delete_row. rewrite Hid.
  apply objects_get_Found_filter in Hfound.
  exact (length_filter_without_one (λ c, Comment.id c = comment_id)
           (λ c, Comment.post c = Post.id p) (comments st) comment Hfound).
Qed.

(** X7. [add_comment] looks the post up by id and asks nothing about its
    visibility or its author: for any logged-in requester, any post found
    and a valid form, it appends one comment carrying the requester as
    author and the post as its post, redirects to the detail page, and the
    post's comment count goes up by one while the other counts stay. *)
Theorem add_comment_appends_to_any_post (st : Store) (request : HttpRequest)
    (u : User.t) (post_id : Z) (post : Post.t) (cleaned : Comment.t) :
  user request = Authenticated u →
  objects_get (λ p, Post.id p = post_id) (posts st) = Found post →
  CommentForm_cleaned st
    (mkForm (or_None (POST_data request)) None Comment.blank) = Some cleaned →
  ∃ saved,
    add_comment request post_id st
    = (Return (Redirect (blog_post_detail post_id)),
       mkStore (users st) (categories st) (posts st) (comments st ++ [saved]))
    ∧ Comment.author saved = User.id u
    ∧ Comment.post saved = post_id
    ∧ Comment.text saved = Comment.text cleaned
    ∧ (∀ p,
         count_comments
           (mkStore (users st) (categories st) (posts st)
              (comments st ++ [saved])) p
         = (count_comments st p
            + if decide (post_id = Post.id p) then 1 else 0)%nat).
Proof.
  intros Huser Hfound Hclean.
  pose proof (objects_get_Found _ _ _ Hfound) as [_ Hid].
  eexists. split.
  { unfold add_comment. run_view. rewrite Huser.
    rewrite (get_object_or_404_Found _ _ _ _ Hfound), Hclean.
    unfold modify, Comment_insert. reflexivity. }
  simpl. split_and!; [done|done|done|].
  intros p. unfold count_comments; simpl.
  rewrite filter_app, length_app, filter_cons, filter_nil; simpl.
  rewrite Hid. f_equal. by repeat case_decide.
Qed.

(** X8. [create_post] with a valid form, for a logged-in requester: the
    post table gains one row at its end and keeps every row it had; the new
    row carries the cleaned fields and the requester as author; the view
    redirects to the requester's profile, and the requester's own profile
    listing holds the new post whatever its publication flag, category and
    date. *)
Theorem create_post_appends_and_shows_in_own_profile (st : Store)
    (now : Z) (request : HttpRequest) (u : User.t) (cleaned : Post.t) :
  user request = Authenticated u →
  PostForm_cleaned st
    (mkForm (or_None (POST_data request)) (or_None (FILES request)) Post.blank)
  = Some cleaned →
  ∃ saved,
    create_post request st
    = (Return (Redirect (blog_profile (User.username u))),
       mkStore (users st) (categories st) (posts st ++ [saved]) (comments st))
    ∧ Post.author saved = User.id u
    ∧ Post.with_id (Post.id saved) (Post.with_author (User.id u) cleaned)
      = saved
    ∧ saved ∈ row_post
               <$> profile_posts (create_post request st).2 now request u.
Proof.
  intros Huser Hclean.
  assert (create_post request st
          = (Return (Redirect (blog_profile (User.username u))),
             Post_insert (Post.with_author (User.id u) cleaned) st)) as Hrun.
  { unfold create_post. run_view. by rewrite Huser, Hclean. }
  eexists. split; [rewrite Hrun; unfold Post_insert; reflexivity|].
  split_and!; [done|done|].
  rewrite Hrun; simpl.
  rewrite row_posts_profile_posts_own by (rewrite Huser; done).
  apply list_elem_of_filter. split; [done|].
  simpl. apply elem_of_app. right. left.
Qed.

(** X9. [edit_post] with a valid form, for the author of the post found:
    the view redirects to the detail page and the row of that post is
    overwritten in place.  When the cleaned instance keeps the key, a lookup
    of [post_id] in the new store finds the cleaned instance, the table has
    as many rows as before, and the rows with another key are the same. *)
Theorem edit_post_overwrites_in_place (st : Store) (request : HttpRequest)
    (u : User.t) (post_id : Z) (post cleaned : Post.t) :
  user request = Authenticated u →
  objects_get (λ p, Post.id p = post_id) (posts st) = Found post →
  Post.author post = User.id u →
  PostForm_cleaned st (mkForm (or_None (POST_data request)) None post)
  = Some cleaned →
  Post.id cleaned = post_id →
  (edit_post request post_id st).1 = Return (Redirect (blog_post_detail post_id))
  ∧ objects_get (λ p, Post.id p = post_id)
      (posts (edit_post request post_id st).2) = Found cleaned
  ∧ length (posts (edit_post request post_id st).2) = length (posts st)
  ∧ (∀ q, Post.id q ≠ post_id →
          q ∈ posts (edit_post request post_id st).2 ↔ q ∈ posts st).
Proof.
  intros Huser Hfound Hauthor Hclean Hkey.
  assert (edit_post request post_id st
          = (Return (Redirect (blog_post_detail post_id)),
             Post_update cleaned st)) as ->.
  { unfold edit_post. run_view. rewrite Huser.
    rewrite (get_object_or_404_Found _ _ _ _ Hfound).
    rewrite decide_False by (simpl; intros Hne; by apply Hne).
    by rewrite Hclean. }
  simpl. split_and!; [done|..].
  - apply objects_get_Found_filter. rewrite <- Hkey.
    rewrite update_row_filter_pk, Hkey.
    apply objects_get_Found_filter in Hfound. by rewrite Hfound.
  - apply update_row_length.
  - intros q Hq. apply update_row_other. congruence.
Qed.

(** X10. [edit_profile] redirects to the profile page under the name the
    requester logged in with.  When the valid form gives the stored user
    (key kept) another username, that redirect names a user that is no
    longer stored: [profile] answers it with the 404 of
    [get_object_or_404]. *)
Theorem edit_profile_rename_redirects_to_old_name (st : Store) (now : Z)
    (request : HttpRequest) (u stored cleaned : User.t) :
  user request = Authenticated u →
  objects_get (λ v, User.username v = User.username u) (users st)
  = Found stored →
  UserForm_cleaned st (mkForm (or_None (POST_data request)) None stored)
  = Some cleaned →
  User.id cleaned = User.id stored →
  User.username cleaned ≠ User.username u →
  (edit_profile request st).1
  = Return (Redirect (blog_profile (User.username u)))
  ∧ users (edit_profile request st).2 = update_row User.id cleaned (users st)
  ∧ (∀ request',
       profile (edit_profile request st).2 now request' (User.username u)
       = Raise (Http404 "No User matches the given query.")).
Proof.
  intros Huser Hfound Hclean Hkey Hname.
  assert (edit_profile request st
          = (Return (Redirect (blog_profile (User.username u))),
             User_update cleaned st)) as ->.
  { unfold edit_profile. run_view. rewrite Huser.
    rewrite (get_object_or_404_Found _ _ _ _ Hfound).
    by rewrite Hclean. }
  simpl. split_and!; [done|done|].
  intros request'. unfold profile, get_object_or_404, User_update.
  cbn [users].
  assert (objects_get (λ v, User.username v = User.username u)
            (update_row User.id cleaned (users st)) = DoesNotExist) as ->; [|done].
  apply objects_get_DoesNotExist. intros v Hv Hold.
  unfold update_row in Hv. apply list_elem_of_fmap in Hv as (w & -> & Hw).
  case_decide as Hpk; [done|].
  apply objects_get_Found_filter in Hfound.
  assert (w ∈ filter (λ v, User.username v = User.username u) (users st)) as Hin
    by (by apply list_elem_of_filter).
  rewrite Hfound in Hin. apply list_elem_of_singleton in Hin as ->.
  by rewrite Hkey in Hpk.
Qed.
End successful_writes.

(** ** Reading views *)

(** X11. The answer of [post_detail] is decided by the post's own flag and
    author alone.  It renders (status 200) exactly when one stored post has
    the id and that post is flagged published or belongs to the requester;
    it answers 404 exactly when no post has the id, or the one that has it
    is unflagged and not the requester's.  What it renders is the detail
    template with the post, an unsaved comment form and the stored comments
    of that post in table order. *)
Theorem post_detail_answer (st : Store) (request : HttpRequest) (post_id : Z) :
  (status_code (post_detail st request post_id) = 200
   ↔ ∃ post, objects_get (λ p, Post.id p = post_id) (posts st) = Found post
             ∧ (Post.is_published post = true
                ∨ is_user (user request) (Post.author post)))
  ∧ (status_code (post_detail st request post_id) = 404
     ↔ objects_get (λ p, Post.id p = post_id) (posts st) = DoesNotExist
       ∨ ∃ post, objects_get (λ p, Post.id p = post_id) (posts st) = Found post
                 ∧ Post.is_published post = false
                 ∧ ¬ is_user (user request) (Post.author post))
  ∧ (∀ template context,
       post_detail st request post_id = Return (Render template context) →
       ∃ post,
         objects_get (λ p, Post.id p = post_id) (posts st) = Found post
         ∧ template = "blog/post_detail.html"
         ∧ context
           = [("post", VPost post);
              ("form", VCommentForm
                         (mkForm (or_None (POST_data request)) None
                            Comment.blank));
              ("comments", VComments
                             (filter (λ c, Comment.post c = post_id)
                                (comments st)))]).
Proof.
  unfold post_detail.
  destruct (objects_get _ (posts st)) as [|post|] eqn:Hget; simpl.
  - split_and!; [split; [done|by intros (? & ? & ?)]|split; [by left|done]|done].
  - pose proof (objects_get_Found _ _ _ Hget) as [_ Hid].
    case_decide as Hguard; simpl.
    + split_and!; [split; [done|]|split; [|done]|done].
      * intros (post' & [= <-] & [Hpub|Hown]); destruct Hguard; [congruence|done].
      * intros _. right. exists post. tauto.
    + split_and!; [split; [|done]|split; [done|]|].
      * intros _. exists post. split; [done|].
        destruct (Post.is_published post) eqn:Hpub; [by left|].
        right. destruct (decide (is_user (user request) (Post.author post)));
          [done|]. by destruct Hguard.
      * intros [|(post' & [= <-] & Hpub & Hother)]; [done|by destruct Hguard].
      * intros template context [= <- <-]. exists post. by rewrite Hid.
  - split_and!; [split; [done|by intros (? & ? & ?)]|split; [done|]|done].
    by intros [|(? & ? & ?)].
Qed.

Section comment_visibility.
Context `{Collaborators}.

(** X12. A comment just added is on the detail page: after [add_comment]
    succeeded on a post the requester may see (flagged published, or the
    requester's own), [post_detail] in the new store renders that post with
    the comments it had before, in their order, followed by the new one. *)
Theorem added_comment_shows_on_detail_page (st : Store)
    (request request' : HttpRequest) (u : User.t) (post_id : Z)
    (post : Post.t) (cleaned : Comment.t) :
  user request = Authenticated u →
  user request' = Authenticated u →
  objects_get (λ p, Post.id p = post_id) (posts st) = Found post →
  CommentForm_cleaned st
    (mkForm (or_None (POST_data request)) None Comment.blank) = Some cleaned →
  Post.is_published post = true ∨ Post.author post = User.id u →
  ∃ saved,
    Comment.text saved = Comment.text cleaned
    ∧ Comment.author saved = User.id u
    ∧ post_detail (add_comment request post_id st).2 request' post_id
      = Return (Render "blog/post_detail.html"
                  [("post", VPost post);
                   ("form", VCommentForm
                              (mkForm (or_None (POST_data request')) None
                                 Comment.blank));
                   ("comments", VComments
                                  (filter (λ c, Comment.post c = post_id)
                                     (comments st) ++ [saved]))]).
Proof.
  intros Huser Huser' Hfound Hclean Hvisible.
  pose proof (objects_get_Found _ _ _ Hfound) as [_ Hid].
  assert (add_comment request post_id st
          = (Return (Redirect (blog_post_detail post_id)),
             Comment_insert
               (Comment.with_post (Post.id post)
                  (Comment.with_author (User.id u) cleaned)) st)) as ->.
  { unfold add_comment. run_view. rewrite Huser.
    by rewrite (get_object_or_404_Found _ _ _ _ Hfound), Hclean. }
  exists (Comment.with_id (next_pk (Comment.id <$> comments st))
            (Comment.with_post (Post.id post)
               (Comment.with_author (User.id u) cleaned))).
  split; [done|]. split; [done|].
  rewrite (post_detail_rendered _ _ _ post).
  - simpl. rewrite Hid, filter_app, filter_cons, filter_nil. simpl.
    by rewrite decide_True.
  - exact Hfound.
  - rewrite Huser'. simpl. destruct Hvisible; [by left|by right].
Qed.
End comment_visibility.

(** X13. The rows of the index feed and of a profile listing carry the
    [comment_count] annotation, equal to the number of stored comments that
    point to the post; the rows of a category listing carry none, since
    [category_posts] does not annotate. *)
Theorem comment_count_is_annotated_except_in_categories (st : Store)
    (now : Z) (request : HttpRequest) (profile : User.t)
    (category : Category.t) (r : Row) :
  (r ∈ index_posts st now →
   comment_count r = Some (count_comments st (row_post r)))
  ∧ (r ∈ profile_posts st now request profile →
     comment_count r = Some (count_comments st (row_post r)))
  ∧ (r ∈ category_posts_qs st now category → comment_count r = None).
Proof.
  assert (∀ qs, r ∈ annotate_comment_count st qs →
                comment_count r = Some (count_comments st (row_post r)))
    as Hannotated.
  { intros qs Hr. unfold annotate_comment_count in Hr.
    by apply list_elem_of_fmap in Hr as (r' & -> & _). }
  split_and!.
  - unfold index_posts. rewrite order_by_pub_date_desc_perm.
    apply Hannotated.
  - unfold profile_posts, get_posts. case_decide.
    + rewrite order_by_pub_date_desc_perm. apply Hannotated.
    + rewrite order_by_pub_date_desc_perm, list_elem_of_filter.
      intros [_ Hr]. by apply (Hannotated _ Hr).
  - unfold category_posts_qs, get_filtered_posts_qs, Post_objects.
    rewrite list_elem_of_filter, order_by_pub_date_desc_perm,
      list_elem_of_filter, list_elem_of_fmap.
    by intros (_ & _ & p & -> & _).
Qed.

(** ** Edges of pagination *)

Section pagination_edges.
Context `{Collaborators}.

(** X14. A [page] parameter that is an integer below one ([0], [-3]) does
    not give the first page: [get_page] treats it as an empty page and
    falls back to the last page, whose rows are the tail of the queryset
    from position [10 * (num_pages - 1)] on. *)
Theorem page_below_one_is_the_last_page (request : HttpRequest)
    (queryset : QuerySet) (s : string) (n : Z) :
  page_param request = Some s →
  py_int s = Some n →
  n < 1 →
  get_paginated_page request queryset
  = Return (mkPage
              (drop (Z.to_nat (10 * (num_pages (mkPaginator queryset 10) - 1)))
                 queryset)
              (num_pages (mkPaginator queryset 10))
              (mkPaginator queryset 10)).
Proof.
  intros Hparam Hint Hlow.
  pose proof (num_pages_ten_pos queryset) as Hpos.
  unfold get_paginated_page, NUMBER_OF_PAGINATOR_PAGES, get_page,
    validate_number.
  rewrite Hparam. simpl int_of. rewrite Hint. cbv beta iota zeta.
  rewrite decide_True by done.
  rewrite page_ten_valid by lia. f_equal. f_equal.
  destruct (decide (queryset = [])) as [->|Hne]; [by rewrite drop_nil|].
  apply take_ge. rewrite length_drop.
  pose proof (last_page_starts_inside queryset Hne).
  rewrite num_pages_ten in *.
  pose proof (Z.div_mod (Z.of_nat (length queryset) + 9) 10 ltac:(lia)).
  pose proof (Z.mod_pos_bound (Z.of_nat (length queryset) + 9) 10 ltac:(lia)).
  lia.
Qed.

(** X15. An empty queryset has one page, and it is empty: whatever the
    [page] parameter says, [get_paginated_page] hands out page 1 with no
    rows, and raises nothing. *)
Theorem empty_queryset_has_one_empty_page (request : HttpRequest) :
  get_paginated_page request []
  = Return (mkPage [] 1 (mkPaginator [] NUMBER_OF_PAGINATOR_PAGES))
  ∧ num_pages (mkPaginator [] NUMBER_OF_PAGINATOR_PAGES) = 1.
Proof.
  unfold get_paginated_page, NUMBER_OF_PAGINATOR_PAGES.
  destruct (get_page_ten []
              match page_param request with
              | Some s => PyStr s
              | None => PyNone
              end) as (n & Hn & -> & _).
  assert (num_pages (mkPaginator [] 10) = 1) as Hone by by rewrite num_pages_ten.
  rewrite Hone in Hn. assert (n = 1) as -> by lia.
  by rewrite page_ten_valid by lia.
Qed.

(** X16. Every page before the last holds exactly ten rows, and the last
    page holds the rows that remain after the full pages. *)
Theorem pages_before_the_last_are_full (request : HttpRequest)
    (queryset : QuerySet) (page_obj : Page) :
  get_paginated_page request queryset = Return page_obj →
  (number page_obj < num_pages (paginator page_obj) →
   length (page_object_list page_obj) = 10%nat)
  ∧ (number page_obj = num_pages (paginator page_obj) →
     Z.of_nat (length (page_object_list page_obj))
     = Z.of_nat (length queryset) - 10 * (num_pages (paginator page_obj) - 1)).
Proof.
  unfold get_paginated_page, NUMBER_OF_PAGINATOR_PAGES.
  destruct (get_page_ten queryset
              match page_param request with
              | Some s => PyStr s
              | None => PyNone
              end) as (n & Hn & -> & _).
  rewrite page_ten_valid by done. intros [= <-].
  cbn [number paginator page_object_list].
  rewrite length_take, length_drop, num_pages_ten in *.
  pose proof (Z.div_mod (Z.of_nat (length queryset) + 9) 10 ltac:(lia)).
  pose proof (Z.mod_pos_bound (Z.of_nat (length queryset) + 9) 10 ltac:(lia)).
  split; intros Hnum; lia.
Qed.
End pagination_edges.

(** ** Listings against the index feed *)

Section listings.
Context `{Collaborators}.

(** X17. [profile] raises the 404 of [get_object_or_404] for a username no
    stored user has, whoever asks and whatever page is asked for. *)
Theorem profile_of_unknown_user_is_404 (st : Store) (now : Z)
    (request : HttpRequest) (username : string) :
  (∀ u, u ∈ users st → User.username u ≠ username) →
  profile st now request username
  = Raise (Http404 "No User matches the given query.").
Proof.
  intros Hnone.
  apply (objects_get_DoesNotExist (λ u, User.username u = username)) in Hnone.
  unfold profile, get_object_or_404. by rewrite Hnone.
Qed.
End listings.

(** X18. A category page and the profile page another requester sees
    list the index feed cut down: the rows the rendered category page
    paginates are the posts of the index feed that belong to the category,
    each once, and the rows the rendered profile page paginates for a
    requester other than the user are the posts of the index feed written
    by the user, each once. *)
Theorem listings_are_the_feed_restricted `{Collaborators} (st : Store)
    (now : Z) (request request' : HttpRequest)
    (category_slug username : string) :
  ∃ feed_page,
    index st now request'
    = Return (Render "blog/index.html" [("page_obj", VPage feed_page)])
    ∧ (∀ template context,
         category_posts st now request category_slug
         = Return (Render template context) →
         ∃ category page_obj,
           context = [("category", VCategory category);
                      ("page_obj", VPage page_obj)]
           ∧ row_post <$> object_list (paginator page_obj)
             ≡ₚ filter (λ p, Post.category p = Some (Category.id category))
                  (row_post <$> object_list (paginator feed_page)))
    ∧ (∀ template context,
         profile st now request username = Return (Render template context) →
         ∃ U page_obj,
           context = [("profile", VUser U); ("page_obj", VPage page_obj)]
           ∧ (¬ is_user (user request) (User.id U) →
              row_post <$> object_list (paginator page_obj)
              ≡ₚ filter (λ p, Post.author p = User.id U)
                   (row_post <$> object_list (paginator feed_page)))).
Proof.
  destruct (index_renders st now request') as (feed_page & Hindex & Hfeed).
  apply page_of_queryset in Hfeed as (Hfeed & _).
  exists feed_page. split; [done|]. rewrite Hfeed; cbn [object_list].
  split.
  - intros template context Hrender.
    apply category_posts_renders in Hrender
      as (category & page_obj & _ & _ & -> & Hpage).
    apply page_of_queryset in Hpage as (Hpaginator & _).
    exists category, page_obj. split; [done|].
    rewrite Hpaginator; cbn [object_list].
    rewrite row_posts_category_posts_qs, row_posts_index_posts.
    by rewrite list_filter_filter.
  - intros template context Hrender.
    apply profile_renders in Hrender as (U & page_obj & _ & _ & -> & Hpage).
    apply page_of_queryset in Hpage as (Hpaginator & _).
    exists U, page_obj. split; [done|]. intros Hother.
    rewrite Hpaginator; cbn [object_list].
    rewrite row_posts_profile_posts_other by done.
    by rewrite row_posts_index_posts, list_filter_filter.
Qed.

End properties.

(** * The properties on the sample store *)

#[local] Existing Instance sample_collaborators.
#[local] Existing Instance ties_in_table_order.

(** [bob] tries to edit and delete post 1 of [alice]; [alice] tries to edit
    and delete comment 1 of [bob]. *)
Lemma non_author_edit_delete_only_redirects_witness :
  let by_bob := request_of POST (Authenticated bob) []
                  [("title", "mine"); ("text", "now")] in
  let by_alice := request_of POST (Authenticated alice) [] [("text", "no")] in
  edit_post by_bob 1 sample_store
  = (Return (Redirect (blog_post_detail 1)), sample_store)
  ∧ delete_post by_bob 1 sample_store
    = (Return (Redirect (blog_post_detail 1)), sample_store)
  ∧ edit_comment by_alice 1 1 sample_store
    = (Return (Redirect (blog_post_detail 1)), sample_store)
  ∧ delete_comment by_alice 1 1 sample_store
    = (Return (Redirect (blog_post_detail 1)), sample_store).
Proof.
  intros by_bob by_alice.
  destruct (non_author_edit_delete_only_redirects sample_store by_bob bob 1 1
              eq_refl) as (Hpost & _ & _).
  destruct (non_author_edit_delete_only_redirects sample_store by_alice alice
              1 1 eq_refl) as (_ & Hcomment & _).
  destruct (Hpost post_public) as [Hedit Hdelete];
    [reflexivity | vm_compute; discriminate |].
  destruct (Hcomment comment_on_public) as [Hedit' Hdelete'];
    [reflexivity | vm_compute; discriminate |].
  repeat split; assumption.
Defined.

(** [alice] opens her own profile. *)
Lemma profile_lists_own_all_others_public_witness :
  objects_get (λ u, User.username u = "alice") (users sample_store) = Found alice
  ∧ ∃ page_obj,
      profile sample_store sample_now
        (request_of GET (Authenticated alice) [] []) "alice"
      = Return (Render "blog/profile.html"
                  [("profile", VUser alice); ("page_obj", VPage page_obj)]).
Proof.
  split; [reflexivity|].
  destruct (profile_lists_own_all_others_public sample_store sample_now
              (request_of GET (Authenticated alice) [] []) "alice" alice
              eq_refl) as (page_obj & Hprofile & _).
  exists page_obj. exact Hprofile.
Defined.

(** [bob] submits forms without their required fields. *)
Lemma invalid_form_rerenders_except_add_comment_witness :
  let request := request_of POST (Authenticated bob) [] [("body", "hello")] in
  create_post request sample_store
  = (Return (Render "blog/create.html"
               [("form", VPostForm (mkForm (Some [("body", "hello")]) None
                                      Post.blank))]),
     sample_store)
  ∧ add_comment request 1 sample_store
    = (Return (Redirect (blog_post_detail 1)), sample_store).
Proof.
  intros request.
  destruct (invalid_form_rerenders_except_add_comment sample_store request bob
              eq_refl) as (Hcreate & _ & _ & _ & Hadd).
  split.
  - apply (Hcreate _ eq_refl). reflexivity.
  - apply (Hadd 1 post_public); reflexivity.
Defined.

(** [bob] edits and deletes his comment 1, which belongs to post 1, through
    URLs that name post 4. *)
Lemma comment_views_never_check_post_id_witness :
  Comment.post comment_on_public ≠ 4
  ∧ edit_comment (request_of POST (Authenticated bob) [] [("text", "edited")])
      4 1 sample_store
    = (Return (Redirect (blog_post_detail 4)),
       Comment_update (Comment.mk 1 "edited" 2 1) sample_store)
  ∧ delete_comment (request_of POST (Authenticated bob) [] []) 4 1 sample_store
    = (Return (Redirect (blog_post_detail 4)),
       Comment_delete comment_on_public sample_store).
Proof.
  split; [vm_compute; discriminate|]. split.
  - destruct (comment_views_never_check_post_id sample_store
                (request_of POST (Authenticated bob) [] [("text", "edited")])
                bob 4 1 comment_on_public eq_refl eq_refl eq_refl)
      as [Hedit _].
    apply (Hedit (Comment.mk 1 "edited" 2 1)). reflexivity.
  - destruct (comment_views_never_check_post_id sample_store
                (request_of POST (Authenticated bob) [] [])
                bob 4 1 comment_on_public eq_refl eq_refl eq_refl)
      as [_ Hdelete].
    apply Hdelete. reflexivity.
Defined.

(** An anonymous visitor asks for the hidden post 2 and for the absent
    post 77. *)
Lemma post_detail_hidden_same_as_absent_witness :
  post_detail sample_store (request_of GET AnonymousUser [] []) 2
  = post_detail sample_store (request_of GET AnonymousUser [] []) 77.
Proof.
  apply (post_detail_hidden_same_as_absent sample_store sample_store
           (request_of GET AnonymousUser [] []) 2 77 post_hidden).
  - reflexivity.
  - reflexivity.
  - simpl. tauto.
  - reflexivity.
Defined.

(** The feed of the sample store has one page; page 999 is that page. *)
Example page_999_on_one_page_feed :
  index sample_store sample_now (request_of GET AnonymousUser [("page", "999")] [])
  = index sample_store sample_now (request_of GET AnonymousUser [("page", "1")] [])
  ∧ status_code (index sample_store sample_now
                   (request_of GET AnonymousUser [("page", "999")] [])) = 200.
Proof. split; reflexivity. Qed.

(** Posts 1 and 5 carry the same date: the engine that keeps ties in table
    order lists post 1 first on the index page, the engine that reverses
    them lists post 5 first. *)
Example equal_dates_follow_the_engine :
  let st := mkStore [alice] [news] [post_public; post_twin] [] in
  Post.id ∘ row_post <$> @index_posts ties_in_table_order st sample_now
  = [1; 5]
  ∧ Post.id ∘ row_post <$> @index_posts ties_in_reverse_order st sample_now
    = [5; 1].
Proof. split; reflexivity. Qed.

(** * The further properties on the sample store *)

(** An anonymous visitor posts to each of the views that write. *)
Lemma anonymous_visitor_is_sent_to_login_witness :
  let request := request_of POST AnonymousUser [] [("text", "hi")] in
  Forall (λ view : View HttpResponse,
            view sample_store = (Return (Redirect login_page), sample_store))
    [create_post request; edit_post request 1; delete_post request 1;
     add_comment request 1; edit_comment request 1 1;
     delete_comment request 1 1; edit_profile request].
Proof.
  intros request.
  apply (anonymous_visitor_is_sent_to_login sample_store request 1 1).
  reflexivity.
Defined.

(** [bob] asks for post 77 and comment 77, which are not stored. *)
Lemma missing_target_is_404_witness :
  let request := request_of POST (Authenticated bob) [] [("text", "hi")] in
  edit_post request 77 sample_store
  = (Raise (Http404 "No Post matches the given query."), sample_store)
  ∧ delete_comment request 1 77 sample_store
    = (Raise (Http404 "No Comment matches the given query."), sample_store).
Proof.
  intros request.
  destruct (missing_target_is_404 sample_store request bob 77 77 eq_refl)
    as [Hpost Hcomment].
  split.
  - assert (∀ p, p ∈ posts sample_store → Post.id p ≠ 77) as Hnone.
    { apply Forall_forall. apply (bool_decide_unpack _). by vm_compute. }
    specialize (Hpost Hnone). by inversion Hpost.
  - assert (∀ c, c ∈ comments sample_store → Comment.id c ≠ 77) as Hnone.
    { apply Forall_forall. apply (bool_decide_unpack _). by vm_compute. }
    specialize (Hcomment Hnone).
    inversion Hcomment as [|? ? _ Htail]. by inversion Htail.
Defined.

(** [alice] opens the delete page of her post 1, [bob] that of his
    comment 1, both with GET. *)
Lemma delete_views_only_delete_on_POST_witness :
  delete_post (request_of GET (Authenticated alice) [] []) 1 sample_store
  = (Return (Render "blog/create.html"
               [("form", VPostForm (mkForm None None post_public))]),
     sample_store)
  ∧ delete_comment (request_of GET (Authenticated bob) [] []) 1 1 sample_store
    = (Return (Render "blog/comment.html"
                 [("comment", VComment comment_on_public)]),
       sample_store).
Proof.
  split.
  - destruct (delete_views_only_delete_on_POST sample_store
                (request_of GET (Authenticated alice) [] []) alice 1 1 eq_refl)
      as [Hpost _]; [discriminate|].
    apply (Hpost post_public); reflexivity.
  - destruct (delete_views_only_delete_on_POST sample_store
                (request_of GET (Authenticated bob) [] []) bob 1 1 eq_refl)
      as [_ Hcomment]; [discriminate|].
    apply (Hcomment comment_on_public); reflexivity.
Defined.

(** [alice] deletes her post 1. *)
Lemma delete_post_removes_the_post_witness :
  let request := request_of POST (Authenticated alice) [] [] in
  (delete_post request 1 sample_store).1 = Return (Redirect blog_index)
  ∧ posts (delete_post request 1 sample_store).2
    = [post_hidden; post_in_drafts; post_future; post_twin].
Proof.
  intros request.
  destruct (delete_post_removes_the_post sample_store request alice 1
              post_public eq_refl eq_refl eq_refl eq_refl) as (Hanswer & Hposts & _).
  split; [exact Hanswer|]. rewrite Hposts. reflexivity.
Defined.

(** [bob] deletes his comment 1, the only comment of post 1. *)
Lemma delete_comment_removes_one_comment_witness :
  let request := request_of POST (Authenticated bob) [] [] in
  count_comments sample_store post_public = 1%nat
  ∧ count_comments (delete_comment request 1 1 sample_store).2 post_public
    = 0%nat.
Proof.
  intros request. split; [reflexivity|].
  destruct (delete_comment_removes_one_comment sample_store request bob 1 1
              comment_on_public eq_refl eq_refl eq_refl eq_refl)
    as (_ & _ & Hcount).
  specialize (Hcount post_public).
  change (count_comments sample_store post_public) with 1%nat in Hcount.
  rewrite decide_True in Hcount by reflexivity. lia.
Defined.

(** [bob] comments on post 2, which is hidden and belongs to [alice]. *)
Lemma add_comment_appends_to_any_post_witness :
  let request := request_of POST (Authenticated bob) [] [("text", "seen")] in
  Post.is_published post_hidden = false
  ∧ Post.author post_hidden ≠ User.id bob
  ∧ ∃ saved,
      (add_comment request 2 sample_store).2
      = mkStore (users sample_store) (categories sample_store)
          (posts sample_store) (comments sample_store ++ [saved])
      ∧ Comment.author saved = 2
      ∧ Comment.post saved = 2.
Proof.
  intros request. split; [reflexivity|]. split; [discriminate|].
  destruct (add_comment_appends_to_any_post sample_store request bob 2
              post_hidden (Comment.mk 0 "seen" 0 0) eq_refl eq_refl)
    as (saved & Hrun & Hauthor & Hpost & _); [reflexivity|].
  exists saved. rewrite Hrun. repeat split; assumption.
Defined.

(** [bob] creates a post. *)
Lemma create_post_appends_and_shows_in_own_profile_witness :
  let request := request_of POST (Authenticated bob) []
                   [("title", "mine"); ("text", "words")] in
  ∃ saved,
    posts (create_post request sample_store).2 = posts sample_store ++ [saved]
    ∧ Post.author saved = 2
    ∧ saved ∈ row_post
               <$> profile_posts (create_post request sample_store).2
                     sample_now request bob.
Proof.
  intros request.
  destruct (create_post_appends_and_shows_in_own_profile sample_store
              sample_now request bob
              (Post.mk 0 "mine" "words" 0 true 0 None None) eq_refl)
    as (saved & Hrun & Hauthor & _ & Hlisted); [reflexivity|].
  exists saved. rewrite Hrun in *. repeat split; assumption.
Defined.

(** [alice] retitles her post 1. *)
Lemma edit_post_overwrites_in_place_witness :
  let request := request_of POST (Authenticated alice) []
                   [("title", "hello again"); ("text", "first")] in
  objects_get (λ p, Post.id p = 1) (posts (edit_post request 1 sample_store).2)
  = Found (Post.mk 1 "hello again" "first" 100 true 1 (Some 1) None).
Proof.
  intros request.
  destruct (edit_post_overwrites_in_place sample_store request alice 1
              post_public
              (Post.mk 1 "hello again" "first" 100 true 1 (Some 1) None)
              eq_refl eq_refl eq_refl) as (_ & Hfound & _);
    [reflexivity..|].
  exact Hfound.
Defined.

(** [bob] renames himself. *)
Lemma edit_profile_rename_redirects_to_old_name_witness :
  let request := request_of POST (Authenticated bob) []
                   [("username", "robert")] in
  (edit_profile request sample_store).1 = Return (Redirect (blog_profile "bob"))
  ∧ profile (edit_profile request sample_store).2 sample_now
      (request_of GET (Authenticated bob) [] []) "bob"
    = Raise (Http404 "No User matches the given query.").
Proof.
  intros request.
  destruct (edit_profile_rename_redirects_to_old_name sample_store sample_now
              request bob bob (User.mk 2 "robert") eq_refl eq_refl)
    as (Hanswer & _ & Hgone); [reflexivity|reflexivity|discriminate|].
  split; [exact Hanswer|apply Hgone].
Defined.

(** [bob] comments on post 1 and opens its detail page. *)
Lemma added_comment_shows_on_detail_page_witness :
  let request := request_of POST (Authenticated bob) [] [("text", "more")] in
  let request' := request_of GET (Authenticated bob) [] [] in
  ∃ saved,
    Comment.text saved = "more"
    ∧ post_detail (add_comment request 1 sample_store).2 request' 1
      = Return (Render "blog/post_detail.html"
                  [("post", VPost post_public);
                   ("form", VCommentForm (mkForm None None Comment.blank));
                   ("comments", VComments [comment_on_public; saved])]).
Proof.
  intros request request'.
  destruct (added_comment_shows_on_detail_page sample_store request request'
              bob 1 post_public (Comment.mk 0 "more" 0 0) eq_refl eq_refl
              eq_refl)
    as (saved & Htext & _ & Hdetail); [reflexivity|by left|].
  exists saved. split; [exact Htext|exact Hdetail].
Defined.

(** Page 0 of a queryset of twelve rows is its second and last page. *)
Lemma page_below_one_is_the_last_page_witness :
  let queryset := replicate 12 (mkRow post_public None) in
  get_paginated_page (request_of GET AnonymousUser [("page", "0")] []) queryset
  = Return (mkPage (replicate 2 (mkRow post_public None)) 2
              (mkPaginator queryset 10)).
Proof.
  intros queryset.
  rewrite (page_below_one_is_the_last_page
             (request_of GET AnonymousUser [("page", "0")] []) queryset "0" 0);
    reflexivity.
Defined.

(** The first of the two pages of a queryset of twelve rows. *)
Lemma pages_before_the_last_are_full_witness :
  let queryset := replicate 12 (mkRow post_public None) in
  ∃ page_obj,
    get_paginated_page (request_of GET AnonymousUser [] []) queryset
    = Return page_obj
    ∧ length (page_object_list page_obj) = 10%nat.
Proof.
  intros queryset.
  exists (mkPage (replicate 10 (mkRow post_public None)) 1
            (mkPaginator queryset 10)).
  split; [reflexivity|].
  apply (pages_before_the_last_are_full (request_of GET AnonymousUser [] [])
           queryset _ eq_refl).
  reflexivity.
Defined.

(** Nobody is called carol. *)
Lemma profile_of_unknown_user_is_404_witness :
  profile sample_store sample_now (request_of GET AnonymousUser [] []) "carol"
  = Raise (Http404 "No User matches the given query.").
Proof.
  apply profile_of_unknown_user_is_404.
  apply Forall_forall. apply (bool_decide_unpack _). by vm_compute.
Defined.
